(** * mousestyles.data: loaders and interval annotation

    A shallow embedding of [mousestyles/data/__init__.py]:
    [load_all_features], [load_intervals], [load_movement], [_in_interval],
    [_lookup_intervals] and [load_movement_and_intervals], together with the
    properties of the interval-membership engine, of the loaders and of the
    annotation loop.

    Conventions.
    - Timestamps and coordinates are IEEE binary64 numbers, as numpy stores
      them: Rocq's primitive [float], compared with [PrimFloat.ltb].
    - A Python call either returns a value or raises: [result A].
    - The data directory is read-only input: a record [DataDir] of lookup
      functions, one per library call that touches the disk
      ([os.listdir], [numpy.load]).
    - A [pandas.DataFrame] of movements is an ordered list of named columns;
      the table of intervals is a list of typed rows; the tidy table of
      [load_all_features] is a list of labelled columns of cells. *)

From Stdlib Require Import String Ascii List ZArith Bool Lia Floats.
From Stdlib Require Import DecimalString DecimalPos.
From Stdlib Require Import Sorting.Permutation Sorting.Sorted.
Import ListNotations.

Local Open Scope string_scope.
Local Open Scope list_scope.

(** ** Exceptions and results *)

Inductive exception : Type :=
| ValueError (msg : string)
| TypeError (msg : string)
| IndexError (msg : string)
| KeyError (key : string)
| IOError (path : string)
| OSError (path : string).

Inductive result (A : Type) : Type :=
| Ok (a : A)
| Raise (e : exception).

Arguments Ok {A} a.
Arguments Raise {A} e.

Definition bind {A B : Type} (r : result A) (k : A -> result B) : result B :=
  match r with
  | Ok a => k a
  | Raise e => Raise e
  end.

Notation "x <- r ;; k" := (bind r (fun x => k))
  (at level 61, r at next level, right associativity).

Definition is_ok {A : Type} (r : result A) : bool :=
  match r with
  | Ok _ => true
  | Raise _ => false
  end.

(** [for x in xs: acc = body(acc, x)], stopping at the first exception. *)
Fixpoint for_each {A S : Type} (body : S -> A -> result S) (xs : list A) (acc : S)
  : result S :=
  match xs with
  | [] => Ok acc
  | x :: xs' => acc' <- body acc x ;; for_each body xs' acc'
  end.

(** ** Intervals and the membership test *)

(** A row restricted to the columns ['start'] and ['stop']. *)
Record Interval : Type := mkInterval { start : float; stop : float }.

(** [def _in_interval(t, interval):
       return interval['start'] < t and t < interval['stop']] *)
Definition _in_interval (t : float) (interval : Interval) : bool :=
  (start interval <? t)%float && (t <? stop interval)%float.

(** Modelled from the spec: the class [Intervals] of [mousestyles.intervals],
    which [_lookup_intervals] imports and whose source is not part of this
    module.  The spec (section 4.1) gives it a constructor that keeps the
    supplied intervals in the supplied order, without sorting or removing
    duplicates, legal on an empty collection, and a query [contains] that is
    a linear scan answering true exactly when some interval [(start, stop)]
    has [start < t] and [t < stop], both strict. *)
Module Intervals.

Definition t : Type := list Interval.

Definition init (intervals : list Interval) : t := intervals.

Fixpoint contains (self : t) (x : float) : bool :=
  match self with
  | [] => false
  | iv :: rest =>
      if ((start iv <? x)%float && (x <? stop iv)%float)%bool then true
      else contains rest x
  end.

End Intervals.

(** ** Tables *)

(** One row of the table returned by [load_intervals]:
    columns strain, mouse, day, start, stop. *)
Record IntervalRow : Type := mkRow {
  row_strain : Z;
  row_mouse : Z;
  row_day : Z;
  row_start : float;
  row_stop : float
}.

(** [intervals[['start', 'stop']]] *)
Definition start_stop (intervals : list IntervalRow) : list Interval :=
  map (fun r => mkInterval (row_start r) (row_stop r)) intervals.

(** [def _lookup_intervals(times, intervals):
       ints = Intervals(intervals[['start', 'stop']])
       return times.map(ints.contains)] *)
Definition _lookup_intervals (times : list float) (intervals : list IntervalRow)
  : list bool :=
  let ints := Intervals.init (start_stop intervals) in
  map (Intervals.contains ints) times.

(** A column of a movement table. *)
Inductive Series : Type :=
| FloatSeries (v : list float)
| BoolSeries (v : list bool).

Definition series_len (s : Series) : nat :=
  match s with
  | FloatSeries v => length v
  | BoolSeries v => length v
  end.

(** A [pandas.DataFrame]: named columns, in column order. *)
Definition DataFrame : Type := list (string * Series).

Definition columns (df : DataFrame) : list string := map fst df.

(** Number of rows: the length of the index, which every column shares. *)
Definition nrows (df : DataFrame) : nat :=
  match df with
  | [] => 0
  | (_, s) :: _ => series_len s
  end.

(** [df[name]] read: [None] stands for pandas' [KeyError]. *)
Fixpoint df_get (df : DataFrame) (name : string) : option Series :=
  match df with
  | [] => None
  | (n, s) :: rest => if String.eqb n name then Some s else df_get rest name
  end.

(** [df[name] = s] once the lengths agree: an existing column of that name
    is replaced where it stands, a new name is appended as the last column. *)
Fixpoint df_set (df : DataFrame) (name : string) (s : Series) : DataFrame :=
  match df with
  | [] => [(name, s)]
  | (n, old) :: rest =>
      if String.eqb n name then (n, s) :: rest
      else (n, old) :: df_set rest name s
  end.

(** Reindexing a frame whose index is empty to [n] rows fills every
    existing column with NaN. *)
Definition reindex_nan (n : nat) (df : DataFrame) : DataFrame :=
  map (fun c => (fst c, FloatSeries (repeat nan n))) df.

Definition length_mismatch_msg : string :=
  "Length of values does not match length of index".

(** [df[name] = array]: pandas takes the index from the array when the frame
    has no rows yet, and otherwise refuses an array whose length differs
    from the index. *)
Definition setitem (df : DataFrame) (name : string) (value : Series)
  : result DataFrame :=
  if Nat.eqb (nrows df) 0 then
    Ok (df_set (reindex_nan (series_len value) df) name value)
  else if Nat.eqb (series_len value) (nrows df) then
    Ok (df_set df name value)
  else
    Raise (ValueError length_mismatch_msg).

(** ** Python values used as subject-day keys *)

Inductive pyval : Type :=
| PyInt (z : Z)
| PyFloat (f : float)
| PyBool (b : bool).

(** [v < 0] *)
Definition py_lt0 (v : pyval) : bool :=
  match v with
  | PyInt z => (z <? 0)%Z
  | PyFloat f => (f <? 0)%float
  | PyBool _ => false
  end.

(** [type(v) != int] *)
Definition type_is_not_int (v : pyval) : bool :=
  match v with
  | PyInt _ => false
  | PyFloat _ => true
  | PyBool _ => true
  end.

(** [any(conditions)] *)
Definition any (conditions : list bool) : bool := existsb (fun b => b) conditions.

(** ["{}".format(v)] for the keys that reach the formatting, which are
    integers; the other two cases are listed for totality. *)
Definition py_format (v : pyval) : string :=
  match v with
  | PyInt z => NilZero.string_of_int (Z.to_int z)
  | PyFloat _ => "<float>"
  | PyBool b => if b then "True" else "False"
  end.

(** [column == v] on an integer column, one cell.  A float key never reaches
    a comparison: [load_movement] has raised before. *)
Definition py_eq_int (k : Z) (v : pyval) : bool :=
  match v with
  | PyInt z => (k =? z)%Z
  | PyBool b => (k =? Z.b2z b)%Z
  | PyFloat _ => false
  end.

(** ** Strings and paths *)

(** [s.split(sep)] for a non-empty separator: the pieces between the
    occurrences of [sep], found from left to right without overlap.
    [skip] counts the characters of an occurrence still to be passed. *)
Fixpoint split_go (sep s acc : string) (skip : nat) : list string :=
  match s with
  | EmptyString => [acc]
  | String c s' =>
      match skip with
      | S k => split_go sep s' acc k
      | O =>
          if prefix sep s
          then acc :: split_go sep s' EmptyString (String.length sep - 1)
          else split_go sep s' (acc ++ String c EmptyString) 0
      end
  end.

Definition split (sep s : string) : list string := split_go sep s EmptyString 0.

(** [l[i]] *)
Definition getitem (l : list string) (i : nat) : result string :=
  match nth_error l i with
  | Some s => Ok s
  | None => Raise (IndexError "list index out of range")
  end.

Definition digit_of (c : ascii) : option Z :=
  let n := Z.of_nat (nat_of_ascii c) in
  if ((48 <=? n) && (n <=? 57))%Z then Some (n - 48)%Z else None.

Fixpoint digits_go (s : string) (acc : Z) : option Z :=
  match s with
  | EmptyString => Some acc
  | String c s' =>
      match digit_of c with
      | Some d => digits_go s' (10 * acc + d)%Z
      | None => None
      end
  end.

Definition digits (s : string) : option Z :=
  match s with
  | EmptyString => None
  | _ => digits_go s 0%Z
  end.

Definition invalid_literal_msg : string :=
  "invalid literal for int() with base 10".

(** [int(s)] on a decimal literal with an optional sign, the form the file
    names of the data set carry.  The blanks and digit separators that
    Python also accepts are not modelled: such a string is malformed here. *)
Definition py_int (s : string) : result Z :=
  let parsed :=
    match s with
    | String "-"%char s' => option_map Z.opp (digits s')
    | String "+"%char s' => digits s'
    | _ => digits s
    end in
  match parsed with
  | Some z => Ok z
  | None => Raise (ValueError invalid_literal_msg)
  end.

Definition endswith_sep (s : string) : bool :=
  match get (String.length s - 1) s with
  | Some c => Ascii.eqb c "/"%char
  | None => false
  end.

(** One step of [os.path.join] (POSIX). *)
Definition path_join2 (path b : string) : string :=
  if prefix "/" b then b
  else if (String.eqb path EmptyString || endswith_sep path)%bool then path ++ b
  else path ++ "/" ++ b.

(** [os.path.join(a, *p)] *)
Definition path_join (a : string) (p : list string) : string :=
  fold_left path_join2 p a.

(** ** The data directory *)

(** What the module reads from disk.  [data_dir] is the package constant
    [mousestyles.data_dir]; [listdir] is [os.listdir]; the three loaders are
    [numpy.load] on the three kinds of array file of the data set (boolean
    vectors, float vectors, two-column float matrices).  [None] means the
    call raises. *)
Record DataDir : Type := mkDataDir {
  data_dir : string;
  listdir : string -> option (list string);
  np_load_bool : string -> option (list bool);
  np_load_float : string -> option (list float);
  np_load_pairs : string -> option (list (float * float))
}.

Definition os_listdir (fs : DataDir) (path : string) : result (list string) :=
  match listdir fs path with
  | Some names => Ok names
  | None => Raise (OSError path)
  end.

Definition load_with {A : Type} (loader : string -> option A) (path : string)
  : result A :=
  match loader path with
  | Some a => Ok a
  | None => Raise (IOError path)
  end.

(** ** load_intervals *)

Definition INTERVAL_FEATURES : list string := ["AS"; "F"; "IS"; "M_AS"; "M_IS"; "W"].

(** [feature in INTERVAL_FEATURES] *)
Definition is_interval_feature (feature : string) : bool :=
  existsb (String.eqb feature) INTERVAL_FEATURES.

(** The double-quote character, which the message below contains. *)
Definition dq : string := String "034"%char EmptyString.

(** The text of the [ValueError] raised for an unknown feature name. *)
Definition invalid_feature_msg : string :=
  "Input value must be one of {"
  ++ dq ++ "AS" ++ dq ++ ", " ++ dq ++ "F" ++ dq ++ ", "
  ++ dq ++ "IS" ++ dq ++ ", " ++ dq ++ "M_AS" ++ dq ++ ", "
  ++ dq ++ "M_IS" ++ dq ++ ", " ++ dq ++ "W" ++ dq ++ "}".

Definition empty_directory_msg : string := "Directory is empty; no file found.".

(** [int(item.split(before)[1].split(after)[0])] *)
Definition int_between (before after item : string) : result Z :=
  tail <- getitem (split before item) 1 ;;
  head <- getitem (split after tail) 0 ;;
  py_int head.

(** Lexicographic order on (strain, mouse, day). *)
Definition key_leb (a b : IntervalRow) : bool :=
  ((row_strain a <? row_strain b)
   || ((row_strain a =? row_strain b)
       && ((row_mouse a <? row_mouse b)
           || ((row_mouse a =? row_mouse b) && (row_day a <=? row_day b)))))%Z.

Fixpoint insert_row (r : IntervalRow) (sorted : list IntervalRow) : list IntervalRow :=
  match sorted with
  | [] => [r]
  | x :: rest => if key_leb r x then r :: sorted else x :: insert_row r rest
  end.

(** [dt.sort(["strain", "mouse", "day"])]: rows of equal key keep their
    relative order. *)
Definition sort_rows (dt : list IntervalRow) : list IntervalRow :=
  fold_right insert_row [] dt.

(** The body of the loop over the files of one feature. *)
Definition load_interval_file (fs : DataDir) (feature : string)
  (dt : list IntervalRow) (item : string) : result (list IntervalRow) :=
  strain <- int_between "strain" "_mouse" item ;;
  mouse <- int_between "mouse" "_day" item ;;
  day <- int_between "day" ".npy" item ;;
  let path := path_join (data_dir fs) ["intervals"; feature; item] in
  sub <- load_with (np_load_pairs fs) path ;;
  let dt_sub := map (fun se => mkRow strain mouse day (fst se) (snd se)) sub in
  Ok (dt ++ dt_sub).

Definition load_intervals (fs : DataDir) (feature : string)
  : result (list IntervalRow) :=
  if negb (is_interval_feature feature) then
    Raise (ValueError invalid_feature_msg)
  else
    file_names <- os_listdir fs (path_join (data_dir fs) ["intervals"; feature]) ;;
    if Nat.eqb (length file_names) 0 then
      Raise (ValueError empty_directory_msg)
    else
      dt <- for_each (load_interval_file fs feature) file_names [] ;;
      Ok (sort_rows dt).

(** ** load_movement *)

Definition nonnegative_msg : string := "Input values need to be nonnegative".
Definition integer_msg : string := "Input values need to be integer".

(** ["txy_coords/K/K_strain{}_mouse{}_day{}.npy".format(strain, mouse, day)] *)
Definition coord_path (kind : string) (strain mouse day : pyval) : string :=
  "txy_coords/" ++ kind ++ "/" ++ kind
  ++ "_strain" ++ py_format strain
  ++ "_mouse" ++ py_format mouse
  ++ "_day" ++ py_format day ++ ".npy".

Definition load_movement (fs : DataDir) (strain mouse day : pyval)
  : result DataFrame :=
  let conditions_value := [py_lt0 strain; py_lt0 mouse; py_lt0 day] in
  let conditions_type :=
    [type_is_not_int strain; type_is_not_int mouse; type_is_not_int day] in
  if any conditions_value then Raise (ValueError nonnegative_msg)
  else if any conditions_type then Raise (TypeError integer_msg)
  else
    let NHB_path := coord_path "C_idx_HB" strain mouse day in
    let CT_path := coord_path "CT" strain mouse day in
    let CX_path := coord_path "CX" strain mouse day in
    let CY_path := coord_path "CY" strain mouse day in
    NHB <- load_with (np_load_bool fs) (path_join (data_dir fs) [NHB_path]) ;;
    let HB := map negb NHB in
    CT <- load_with (np_load_float fs) (path_join (data_dir fs) [CT_path]) ;;
    CX <- load_with (np_load_float fs) (path_join (data_dir fs) [CX_path]) ;;
    CY <- load_with (np_load_float fs) (path_join (data_dir fs) [CY_path]) ;;
    let dt : DataFrame := [] in
    dt <- setitem dt "t" (FloatSeries CT) ;;
    dt <- setitem dt "x" (FloatSeries CX) ;;
    dt <- setitem dt "y" (FloatSeries CY) ;;
    dt <- setitem dt "isHB" (BoolSeries HB) ;;
    Ok dt.

(** ** load_movement_and_intervals *)

(** The values of a column as numbers; numpy reads a boolean as 0 or 1. *)
Definition as_floats (s : Series) : list float :=
  match s with
  | FloatSeries v => v
  | BoolSeries v => map (fun b : bool => if b then 1%float else 0%float) v
  end.

(** [movements['t']] *)
Definition times_of (movements : DataFrame) : result (list float) :=
  match df_get movements "t" with
  | Some s => Ok (as_floats s)
  | None => Raise (KeyError "t")
  end.

(** [intervals[(intervals['strain'] == strain) &
               (intervals['mouse'] == mouse) &
               (intervals['day'] == day)]] *)
Definition select_subject_day (strain mouse day : pyval)
  (intervals : list IntervalRow) : list IntervalRow :=
  filter (fun r => py_eq_int (row_strain r) strain
                   && py_eq_int (row_mouse r) mouse
                   && py_eq_int (row_day r) day) intervals.

(** The body of the loop over the requested features. *)
Definition annotate_feature (fs : DataDir) (strain mouse day : pyval)
  (movements : DataFrame) (f : string) : result DataFrame :=
  intervals <- load_intervals fs f ;;
  let mouse_intervals := select_subject_day strain mouse day intervals in
  times <- times_of movements ;;
  Ok (df_set movements f (BoolSeries (_lookup_intervals times mouse_intervals))).

Definition load_movement_and_intervals (fs : DataDir) (strain mouse day : pyval)
  (features : list string) : result DataFrame :=
  movements <- load_movement fs strain mouse day ;;
  for_each (annotate_feature fs strain mouse day) features movements.

(** ** Observations on tables, used to state the properties *)

(** The feature names in the order of their first occurrence. *)
Fixpoint first_occurrences (seen : list string) (features : list string)
  : list string :=
  match features with
  | [] => []
  | f :: rest =>
      if existsb (String.eqb f) seen then first_occurrences seen rest
      else f :: first_occurrences (seen ++ [f]) rest
  end.

Definition movement_columns : list string := ["t"; "x"; "y"; "isHB"].

(** Every column has [n] rows. *)
Definition uniform (n : nat) (df : DataFrame) : Prop :=
  Forall (fun c => series_len (snd c) = n) df.



(** ** A small data directory, for the worked examples *)

Definition sample_listdir (path : string) : option (list string) :=
  if String.eqb path "data/intervals/AS" then
    Some ["AS_strain1_mouse1_day1.npy"; "AS_strain0_mouse0_day0.npy"]
  else if String.eqb path "data/intervals/F" then
    Some ["F_strain0_mouse0_day0.npy"]
  else if String.eqb path "data/intervals/IS" then
    Some []
  else None.

Definition sample_pairs (path : string) : option (list (float * float)) :=
  if String.eqb path "data/intervals/AS/AS_strain1_mouse1_day1.npy" then
    Some [(1, 2); (5, 6)]%float
  else if String.eqb path "data/intervals/AS/AS_strain0_mouse0_day0.npy" then
    Some [(0, 10)]%float
  else if String.eqb path "data/intervals/F/F_strain0_mouse0_day0.npy" then
    Some [(2, 3)]%float
  else None.

Definition sample_floats (path : string) : option (list float) :=
  if String.eqb path "data/txy_coords/CT/CT_strain1_mouse1_day1.npy" then
    Some [0; 1.5; 3; 5.5; 7]%float
  else if String.eqb path "data/txy_coords/CX/CX_strain1_mouse1_day1.npy" then
    Some [-6.25; -5.5; -5; -4.5; -4]%float
  else if String.eqb path "data/txy_coords/CY/CY_strain1_mouse1_day1.npy" then
    Some [34.5; 34; 33.25; 33; 32.5]%float
  else None.

Definition sample_bools (path : string) : option (list bool) :=
  if String.eqb path "data/txy_coords/C_idx_HB/C_idx_HB_strain1_mouse1_day1.npy"
  then Some [true; false; false; true; true]
  else None.

Definition sample_dir : DataDir :=
  mkDataDir "data" sample_listdir sample_bools sample_floats sample_pairs.

Definition sample_movements : DataFrame :=
  [("t", FloatSeries [0; 1.5; 3; 5.5; 7]%float);
   ("x", FloatSeries [-6.25; -5.5; -5; -4.5; -4]%float);
   ("y", FloatSeries [34.5; 34; 33.25; 33; 32.5]%float);
   ("isHB", BoolSeries [false; true; true; false; false])].

(** [sample_movements] annotated with the features F and AS. *)
Definition sample_annotated : DataFrame :=
  sample_movements
  ++ [("F", BoolSeries [false; false; false; false; false]);
      ("AS", BoolSeries [false; true; false; true; false])].

(** ** load_all_features *)

(** A 3-d numpy array of numbers: its shape and its cells. *)
Record ndarray3 : Type := mkArray3 {
  dim0 : nat;
  dim1 : nat;
  dim2 : nat;
  at3 : nat -> nat -> nat -> float
}.

(** A 2-d numpy array. *)
Record ndarray2 : Type := mkArray2 {
  rows2 : nat;
  cols2 : nat;
  at2 : nat -> nat -> float
}.

(** A column label of a frame: a name or an integer. *)
Inductive label : Type :=
| LStr (s : string)
| LInt (z : Z).

Definition label_eqb (a b : label) : bool :=
  match a, b with
  | LStr s, LStr s' => String.eqb s s'
  | LInt z, LInt z' => (z =? z')%Z
  | _, _ => false
  end.

(** A cell of a frame: a number, or a label in the column made by [melt]. *)
Inductive cell : Type :=
| CNum (f : float)
| CLabel (l : label).

(** A frame whose columns are labelled by names or integers. *)
Definition Frame : Type := list (label * list cell).

Definition frame_labels (df : Frame) : list label := map fst df.

Definition frame_rows (df : Frame) : nat :=
  match df with
  | [] => 0
  | (_, c) :: _ => length c
  end.

(** [df[l]] *)
Fixpoint frame_get (df : Frame) (l : label) : result (list cell) :=
  match df with
  | [] => Raise (KeyError "column")
  | (n, c) :: rest => if label_eqb n l then Ok c else frame_get rest l
  end.

(** [a[i, :, :]] *)
Definition slab (a : ndarray3) (i : nat) : result ndarray2 :=
  if Nat.ltb i (dim0 a) then Ok (mkArray2 (dim1 a) (dim2 a) (at3 a i))
  else Raise (IndexError "index is out of bounds for axis 0").

(** [pd.DataFrame(data=m, columns=columns)]: one column per label, refused
    when the width of the array is not the number of labels. *)
Definition frame_of_array (m : ndarray2) (columns : list label) : result Frame :=
  if Nat.eqb (cols2 m) (length columns) then
    Ok (map (fun jc => (snd jc, map (fun r => CNum (at2 m r (fst jc))) (seq 0 (rows2 m))))
          (combine (seq 0 (cols2 m)) columns))
  else Raise (ValueError "Shape of passed values does not match the columns").

(** The values of several columns, or the first [KeyError]. *)
Fixpoint frame_get_all (df : Frame) (ls : list label) : result (list (list cell)) :=
  match ls with
  | [] => Ok []
  | l :: rest =>
      c <- frame_get df l ;;
      cs <- frame_get_all df rest ;;
      Ok (c :: cs)
  end.

(** [pd.melt(df, id_vars, value_vars, var_name, value_name)]: the value
    columns are stacked one under the other; each identifier column is
    repeated once per value column; the new column [var_name] tells which
    value column a row comes from. *)
Definition melt (df : Frame) (id_vars value_vars : list label)
  (var_name value_name : label) : result Frame :=
  ids <- frame_get_all df id_vars ;;
  vals <- frame_get_all df value_vars ;;
  let n := frame_rows df in
  let k := length value_vars in
  Ok (map (fun ic => (fst ic, concat (repeat (snd ic) k))) (combine id_vars ids)
      ++ [(var_name, flat_map (fun v => repeat (CLabel v) n) value_vars)]
      ++ [(value_name, concat vals)]).

(** [x.iloc[:, -1]] *)
Definition last_column (df : Frame) : result (label * list cell) :=
  match rev df with
  | c :: _ => Ok c
  | [] => Raise (IndexError "single positional indexer is out-of-bounds")
  end.

(** [[x.iloc[:, -1] for x in data_frames]] *)
Fixpoint last_columns (dfs : list Frame) : result Frame :=
  match dfs with
  | [] => Ok []
  | df :: rest =>
      c <- last_column df ;;
      cs <- last_columns rest ;;
      Ok (c :: cs)
  end.

(** The list [features] of [load_all_features]. *)
Definition bin_features : list string :=
  ["ASProbability"; "ASNumbers"; "ASDurations"; "Food"; "Water"; "Distance";
   "ASFoodIntensity"; "ASWaterIntensity"; "MoveASIntensity"].

(** [list(range(0, 22, 2))] *)
Definition hours : list label := map (fun k => LInt (2 * Z.of_nat k)) (seq 0 11).

(** [enumerate(l)] *)
Definition enumerate {A : Type} (l : list A) : list (nat * A) :=
  combine (seq 0 (length l)) l.

(** [np_load_cube] is [numpy.load] on the file of the 3-d array.  The frames
    put side by side by [pd.concat(..., axis=1)] share one index, so their
    columns are simply listed one after the other. *)
Definition load_all_features (np_load_cube : string -> option ndarray3) (fs : DataDir)
  : result Frame :=
  all_features <-
    load_with np_load_cube
      (path_join (data_dir fs) ["all_features_mousedays_11bins.npy"]) ;;
  let columns := [LStr "strain"; LStr "mouse"; LStr "day"] ++ hours in
  data_frames <-
    for_each (fun data_frames i_feature =>
                m <- slab all_features (fst i_feature) ;;
                df <- frame_of_array m columns ;;
                melted_df <- melt df (firstn 3 columns) (skipn 3 columns)
                               (LStr "hour") (LStr (snd i_feature)) ;;
                Ok (data_frames ++ [melted_df]))
      (enumerate bin_features) [] ;;
  match data_frames with
  | [] => Raise (IndexError "pop from empty list")
  | all_features_df :: data_frames =>
      other_features <- last_columns data_frames ;;
      Ok (all_features_df ++ other_features)
  end.

(** ** Further notions used to state properties *)

(** The path of the 3-d array file. *)
Definition cube_path (fs : DataDir) : string :=
  path_join (data_dir fs) ["all_features_mousedays_11bins.npy"].

(** The column [j] of the slab [i], over the mouse-days. *)
Definition cube_column (a : ndarray3) (i j : nat) : list cell :=
  map (fun r => CNum (at3 a i r j)) (seq 0 (dim1 a)).

(** The tidy table in closed form: the three identifiers of the first slab
    repeated for each of the 11 bins, the bin of each row, and for each
    feature its 11 bin columns stacked. *)
Definition tidy_table (a : ndarray3) : Frame :=
  [(LStr "strain", concat (repeat (cube_column a 0 0) 11));
   (LStr "mouse", concat (repeat (cube_column a 0 1) 11));
   (LStr "day", concat (repeat (cube_column a 0 2) 11));
   (LStr "hour", flat_map (fun h => repeat (CLabel h) (dim1 a)) hours)]
  ++ map (fun i_feature =>
            (LStr (snd i_feature),
             flat_map (fun j => cube_column a (fst i_feature) (3 + j)) (seq 0 11)))
       (enumerate bin_features).

(** Rows whose start is below their stop. *)
Definition proper_row (r : IntervalRow) : bool := (row_start r <? row_stop r)%float.

(** [key_leb] as a relation. *)
Definition key_le (a b : IntervalRow) : Prop := key_leb a b = true.

(** The rows one file contributes: the loop body run on an empty table. *)
Definition file_rows (fs : DataDir) (feature item : string) : result (list IntervalRow) :=
  load_interval_file fs feature [] item.

(** The rows of a two-column array under the keys (s, m, d). *)
Definition keyed_rows (s m d : Z) (sub : list (float * float)) : list IntervalRow :=
  map (fun se => mkRow s m d (fst se) (snd se)) sub.

(** No character of [s] is [c]. *)
Fixpoint lacks (c : ascii) (s : string) : bool :=
  match s with
  | EmptyString => true
  | String a s' => negb (Ascii.eqb a c) && lacks c s'
  end.

(** The name [prefix_strain<s>_mouse<m>_day<d>.npy]. *)
Definition interval_file_name (prefix : string) (s m d : Z) : string :=
  prefix ++ "_strain" ++ py_format (PyInt s)
         ++ "_mouse" ++ py_format (PyInt m)
         ++ "_day" ++ py_format (PyInt d) ++ ".npy".

(** An interval file: the keys in its name and the pairs it holds. *)
Record KeyedFile : Type := mkKeyedFile {
  kf_strain : Z;
  kf_mouse : Z;
  kf_day : Z;
  kf_pairs : list (float * float)
}.

Definition kf_name (feature : string) (f : KeyedFile) : string :=
  interval_file_name feature (kf_strain f) (kf_mouse f) (kf_day f).

Definition kf_rows (f : KeyedFile) : list IntervalRow :=
  keyed_rows (kf_strain f) (kf_mouse f) (kf_day f) (kf_pairs f).

(** The file is in the directory of the feature under its conventional
    name, with nonnegative keys, and holds the pairs [kf_pairs]. *)
Definition kf_stored (fs : DataDir) (feature : string) (f : KeyedFile) : Prop :=
  (0 <= kf_strain f)%Z /\ (0 <= kf_mouse f)%Z /\ (0 <= kf_day f)%Z
  /\ np_load_pairs fs (path_join (data_dir fs) ["intervals"; feature; kf_name feature f])
     = Some (kf_pairs f).

(** The four kinds of coordinate file of a subject-day. *)
Definition movement_kinds : list string := ["C_idx_HB"; "CT"; "CX"; "CY"].

(** [os.path.join(data_dir, "txy_coords/K/K_strain{}_mouse{}_day{}.npy")] *)
Definition coord_file (fs : DataDir) (kind : string) (strain mouse day : pyval) : string :=
  path_join (data_dir fs) [coord_path kind strain mouse day].

(** The column a feature gets: the batch query of the column t against the
    intervals of the subject-day. *)
Definition feature_column (fs : DataDir) (strain mouse day : pyval)
  (ts : Series) (f : string) : option Series :=
  match load_intervals fs f with
  | Ok intervals =>
      Some (BoolSeries (_lookup_intervals (as_floats ts)
                          (select_subject_day strain mouse day intervals)))
  | Raise _ => None
  end.

(** The state of the annotation loop: the column t is still there, and every
    feature already handled holds its own column. *)
Definition loop_inv (fs : DataDir) (strain mouse day : pyval) (ts : Series)
  (seen : list string) (df : DataFrame) : Prop :=
  df_get df "t" = Some ts
  /\ forall g, In g seen ->
               exists s, feature_column fs strain mouse day ts g = Some s
                         /\ df_get df g = Some s.

(** ** A second data directory, with faulty content *)

(** The directory of AS lists a file whose name does not follow the
    convention; the coordinate files of subject-day (2, 0, 0) have
    different lengths. *)
Definition faulty_listdir (path : string) : option (list string) :=
  if String.eqb path "faulty/intervals/AS" then
    Some ["AS_strain0_mouse0_day0.npy"; "notes.txt"; "AS_strain1_mouse1_day1.npy"]
  else None.

Definition faulty_pairs (path : string) : option (list (float * float)) :=
  if String.eqb path "faulty/intervals/AS/AS_strain0_mouse0_day0.npy" then
    Some [(0, 10)]%float
  else None.

Definition faulty_floats (path : string) : option (list float) :=
  if String.eqb path "faulty/txy_coords/CT/CT_strain2_mouse0_day0.npy" then
    Some [0; 1]%float
  else if String.eqb path "faulty/txy_coords/CX/CX_strain2_mouse0_day0.npy" then
    Some [5]%float
  else if String.eqb path "faulty/txy_coords/CY/CY_strain2_mouse0_day0.npy" then
    Some [1; 2]%float
  else None.

Definition faulty_bools (path : string) : option (list bool) :=
  if String.eqb path "faulty/txy_coords/C_idx_HB/C_idx_HB_strain2_mouse0_day0.npy"
  then Some [true; false]
  else None.

Definition faulty_dir : DataDir :=
  mkDataDir "faulty" faulty_listdir faulty_bools faulty_floats faulty_pairs.

(** A small cube: 9 features, 2 mouse-days, 14 columns; the cell (i, r, j)
    holds the number 100 i + 20 r + j. *)
Definition sample_cube : ndarray3 :=
  mkArray3 9 2 14
    (fun i r j => PrimFloat.of_uint63 (Uint63.of_Z (Z.of_nat (100 * i + 20 * r + j)))).

Definition sample_cube_loader (path : string) : option ndarray3 :=
  if String.eqb path "data/all_features_mousedays_11bins.npy" then Some sample_cube
  else None.

(** * Properties *)

(** ** The membership engine *)

Lemma in_interval_strict (t : float) (iv : Interval) :
  _in_interval t iv = true <->
  (start iv <? t)%float = true /\ (t <? stop iv)%float = true.
Proof. unfold _in_interval. apply andb_true_iff. Qed.

Lemma contains_scan (ivs : list Interval) (t : float) :
  Intervals.contains (Intervals.init ivs) t = existsb (_in_interval t) ivs.
Proof.
  unfold Intervals.init.
  induction ivs as [|iv rest IH]; simpl; [reflexivity|].
  rewrite IH. unfold _in_interval.
  destruct ((start iv <? t)%float && (t <? stop iv)%float); reflexivity.
Qed.

Lemma contains_iff (ivs : list Interval) (t : float) :
  Intervals.contains (Intervals.init ivs) t = true <->
  exists iv, In iv ivs /\
             (start iv <? t)%float = true /\ (t <? stop iv)%float = true.
Proof.
  rewrite contains_scan, existsb_exists.
  split; intros [iv [Hin H]]; exists iv; split; auto;
    apply in_interval_strict; exact H.
Qed.


Lemma ltb_nan_l (x : float) : (nan <? x)%float = false.
Proof.
  rewrite ltb_spec. unfold SpecFloat.SFltb.
  replace (Prim2SF nan) with SpecFloat.S754_nan by reflexivity.
  reflexivity.
Qed.


Lemma lookup_length (times : list float) (intervals : list IntervalRow) :
  length (_lookup_intervals times intervals) = length times.
Proof. unfold _lookup_intervals. apply length_map. Qed.


(** C1: the containment query answers true exactly when some interval of the
    collection has start < t and t < stop, both strict; the single-interval
    test of the module is the same strict test; for the interval (2, 3) the
    query is false at 2 and at 3 and true at 2.5. *)
Theorem C1_containment_is_strict :
  (forall t iv,
      _in_interval t iv = true <->
      (start iv <? t)%float = true /\ (t <? stop iv)%float = true)
  /\ (forall t ivs,
         Intervals.contains (Intervals.init ivs) t = true <->
         exists iv, In iv ivs /\
                    (start iv <? t)%float = true /\ (t <? stop iv)%float = true)
  /\ (forall t ivs,
         Intervals.contains (Intervals.init ivs) t = existsb (_in_interval t) ivs)
  /\ Intervals.contains (Intervals.init [mkInterval 2 3]) 2 = false
  /\ Intervals.contains (Intervals.init [mkInterval 2 3]) 3 = false
  /\ Intervals.contains (Intervals.init [mkInterval 2 3]) 2.5 = true.
Proof.
  split; [exact in_interval_strict|].
  split; [intros t ivs; apply contains_iff|].
  split; [intros t ivs; apply contains_scan|].
  repeat split; vm_compute; reflexivity.
Qed.

(** C2: the batch query returns one boolean per timestamp, in the order of
    the timestamps, and its i-th element is the single-point query on the
    i-th timestamp. *)
Theorem C2_lookup_is_elementwise (times : list float) (intervals : list IntervalRow) :
  let ints := Intervals.init (start_stop intervals) in
  length (_lookup_intervals times intervals) = length times
  /\ _lookup_intervals times intervals = map (Intervals.contains ints) times
  /\ forall i,
       nth_error (_lookup_intervals times intervals) i
       = option_map (Intervals.contains ints) (nth_error times i).
Proof.
  intros ints. split; [apply lookup_length|].
  split; [reflexivity|].
  intros i. unfold _lookup_intervals. fold ints. apply nth_error_map.
Qed.







(** ** Annotation *)

(** C4: with an empty feature list the annotated table is the movement
    table itself: same columns, same rows, same order; an exception of
    [load_movement] is passed on unchanged. *)
Theorem C4_no_feature_is_identity (fs : DataDir) (strain mouse day : pyval) :
  load_movement_and_intervals fs strain mouse day []
  = load_movement fs strain mouse day.
Proof.
  unfold load_movement_and_intervals.
  destruct (load_movement fs strain mouse day) as [movements|e]; reflexivity.
Qed.

(** ** Subject-day keys *)

Lemma load_movement_negative (fs : DataDir) (strain mouse day : pyval) :
  any [py_lt0 strain; py_lt0 mouse; py_lt0 day] = true ->
  load_movement fs strain mouse day = Raise (ValueError nonnegative_msg).
Proof. intros H. unfold load_movement. rewrite H. reflexivity. Qed.

Lemma load_movement_not_int (fs : DataDir) (strain mouse day : pyval) :
  any [py_lt0 strain; py_lt0 mouse; py_lt0 day] = false ->
  any [type_is_not_int strain; type_is_not_int mouse; type_is_not_int day] = true ->
  load_movement fs strain mouse day = Raise (TypeError integer_msg).
Proof. intros Hv Ht. unfold load_movement. rewrite Hv, Ht. reflexivity. Qed.

Lemma setitem_raise (df : DataFrame) (name : string) (value : Series) (e : exception) :
  setitem df name value = Raise e -> e = ValueError length_mismatch_msg.
Proof.
  unfold setitem.
  destruct (Nat.eqb (nrows df) 0); [discriminate|].
  destruct (Nat.eqb (series_len value) (nrows df)); [discriminate|].
  intros H. inversion H. reflexivity.
Qed.

Lemma load_with_raise {A : Type} (loader : string -> option A) (path : string)
  (e : exception) :
  load_with loader path = Raise e -> e = IOError path.
Proof.
  unfold load_with. destruct (loader path); [discriminate|].
  intros H. inversion H. reflexivity.
Qed.

(** With valid keys the only exceptions left are those of the array loads
    and of the column assignments. *)
Lemma load_movement_valid_raise (fs : DataDir) (strain mouse day : pyval)
  (e : exception) :
  any [py_lt0 strain; py_lt0 mouse; py_lt0 day] = false ->
  any [type_is_not_int strain; type_is_not_int mouse; type_is_not_int day] = false ->
  load_movement fs strain mouse day = Raise e ->
  (exists path, e = IOError path) \/ e = ValueError length_mismatch_msg.
Proof.
  intros Hv Ht. unfold load_movement. rewrite Hv, Ht.
  repeat match goal with
  | |- bind (load_with ?l ?p) _ = Raise e -> _ =>
      let H := fresh "Hload" in
      destruct (load_with l p) eqn:H; simpl;
      [ | intros Heq; inversion Heq; subst;
          left; eexists; eapply load_with_raise; exact H ]
  | |- bind (setitem ?d ?n ?v) _ = Raise e -> _ =>
      let H := fresh "Hset" in
      destruct (setitem d n v) eqn:H; simpl;
      [ | intros Heq; inversion Heq; subst;
          right; eapply setitem_raise; exact H ]
  end.
  discriminate.
Qed.

Lemma nonneg_int_keys (s m d : Z) :
  (0 <= s)%Z -> (0 <= m)%Z -> (0 <= d)%Z ->
  any [py_lt0 (PyInt s); py_lt0 (PyInt m); py_lt0 (PyInt d)] = false
  /\ any [type_is_not_int (PyInt s); type_is_not_int (PyInt m);
          type_is_not_int (PyInt d)] = false.
Proof.
  intros Hs Hm Hd. split; [|reflexivity].
  simpl. rewrite !orb_false_r.
  apply Z.ltb_ge in Hs, Hm, Hd. rewrite Hs, Hm, Hd. reflexivity.
Qed.

(** Keys that pass both tests are nonnegative Python ints: the formatting of
    the paths and the comparisons with the key columns only ever see such
    keys. *)
Lemma valid_keys_are_ints (strain mouse day : pyval) :
  any [py_lt0 strain; py_lt0 mouse; py_lt0 day] = false ->
  any [type_is_not_int strain; type_is_not_int mouse; type_is_not_int day] = false ->
  exists s m d,
    strain = PyInt s /\ mouse = PyInt m /\ day = PyInt d
    /\ (0 <= s)%Z /\ (0 <= m)%Z /\ (0 <= d)%Z.
Proof.
  intros Hv Ht.
  destruct strain as [s| |]; try discriminate Ht.
  destruct mouse as [m| |]; try discriminate Ht.
  destruct day as [d| |]; try discriminate Ht.
  simpl in Hv. rewrite !orb_false_r in Hv.
  apply orb_false_iff in Hv. destruct Hv as [Hs Hv].
  apply orb_false_iff in Hv. destruct Hv as [Hm Hd].
  apply Z.ltb_ge in Hs, Hm, Hd.
  exists s, m, d. repeat split; auto.
Qed.

(** C7, as the code has it: a negative key raises
    ValueError("Input values need to be nonnegative"); with no negative key,
    a key whose type is not int raises
    TypeError("Input values need to be integer"); these are two different
    exceptions; nonnegative integer keys raise neither. *)
Theorem C7_key_validation (fs : DataDir) (strain mouse day : pyval) :
  (any [py_lt0 strain; py_lt0 mouse; py_lt0 day] = true ->
   load_movement fs strain mouse day = Raise (ValueError nonnegative_msg))
  /\ (any [py_lt0 strain; py_lt0 mouse; py_lt0 day] = false ->
      any [type_is_not_int strain; type_is_not_int mouse; type_is_not_int day] = true ->
      load_movement fs strain mouse day = Raise (TypeError integer_msg))
  /\ (forall s m d,
         strain = PyInt s -> mouse = PyInt m -> day = PyInt d ->
         (0 <= s)%Z -> (0 <= m)%Z -> (0 <= d)%Z ->
         load_movement fs strain mouse day <> Raise (ValueError nonnegative_msg)
         /\ load_movement fs strain mouse day <> Raise (TypeError integer_msg))
  /\ @Raise DataFrame (ValueError nonnegative_msg) <> Raise (TypeError integer_msg).
Proof.
  split; [apply load_movement_negative|].
  split; [apply load_movement_not_int|].
  split; [|discriminate].
  intros s m d -> -> -> Hs Hm Hd.
  destruct (nonneg_int_keys s m d Hs Hm Hd) as [Hv Ht].
  split; intros H;
    destruct (load_movement_valid_raise _ _ _ _ _ Hv Ht H) as [[path Hp]|Hp];
    discriminate Hp.
Qed.

Lemma C7_key_validation_witness :
  load_movement sample_dir (PyInt (-1)) (PyInt 0) (PyInt 0)
  = Raise (ValueError nonnegative_msg)
  /\ load_movement sample_dir (PyFloat 1.5) (PyInt 0) (PyInt 0)
     = Raise (TypeError integer_msg)
  /\ (load_movement sample_dir (PyInt 1) (PyInt 1) (PyInt 1)
      <> Raise (ValueError nonnegative_msg)
      /\ load_movement sample_dir (PyInt 1) (PyInt 1) (PyInt 1)
         <> Raise (TypeError integer_msg)).
Proof.
  split.
  { apply (proj1 (C7_key_validation sample_dir (PyInt (-1)) (PyInt 0) (PyInt 0))).
    reflexivity. }
  split.
  { apply (proj1 (proj2 (C7_key_validation sample_dir (PyFloat 1.5) (PyInt 0) (PyInt 0))));
      reflexivity. }
  apply (proj1 (proj2 (proj2
           (C7_key_validation sample_dir (PyInt 1) (PyInt 1) (PyInt 1)))) 1%Z 1%Z 1%Z);
    try reflexivity; lia.
Defined.

(** The claim of one common error for both cases fails: -1 raises a
    ValueError, 1.5 a TypeError. *)
Lemma C7_same_error_counterexample :
  load_movement sample_dir (PyInt (-1)) (PyInt 0) (PyInt 0)
  = Raise (ValueError nonnegative_msg)
  /\ load_movement sample_dir (PyFloat 1.5) (PyInt 0) (PyInt 0)
     = Raise (TypeError integer_msg)
  /\ load_movement sample_dir (PyInt (-1)) (PyInt 0) (PyInt 0)
     <> load_movement sample_dir (PyFloat 1.5) (PyInt 0) (PyInt 0).
Proof.
  split; [reflexivity|]. split; [reflexivity|].
  vm_compute. discriminate.
Qed.

(** C10: the sign of the keys is tested before their type: when some key is
    negative and some key is not an int (one key of value -1.5 is both), the
    exception is the ValueError about nonnegative values, not the TypeError. *)
Theorem C10_sign_checked_before_type (fs : DataDir) (strain mouse day : pyval) :
  any [py_lt0 strain; py_lt0 mouse; py_lt0 day] = true ->
  any [type_is_not_int strain; type_is_not_int mouse; type_is_not_int day] = true ->
  load_movement fs strain mouse day = Raise (ValueError nonnegative_msg)
  /\ load_movement fs strain mouse day <> Raise (TypeError integer_msg).
Proof.
  intros Hv _. rewrite (load_movement_negative _ _ _ _ Hv).
  split; [reflexivity | discriminate].
Qed.

Lemma C10_sign_checked_before_type_witness :
  load_movement sample_dir (PyFloat (-1.5)) (PyInt 0) (PyInt 0)
  = Raise (ValueError nonnegative_msg)
  /\ load_movement sample_dir (PyFloat (-1.5)) (PyInt 0) (PyInt 0)
     <> Raise (TypeError integer_msg).
Proof.
  apply (C10_sign_checked_before_type sample_dir (PyFloat (-1.5)) (PyInt 0) (PyInt 0));
    reflexivity.
Defined.

(** ** Feature names *)

Lemma is_interval_feature_In (feature : string) :
  is_interval_feature feature = true <-> In feature INTERVAL_FEATURES.
Proof.
  unfold is_interval_feature. rewrite existsb_exists. split.
  - intros [x [Hin Heq]]. apply String.eqb_eq in Heq. subst. exact Hin.
  - intros Hin. exists feature. split; [exact Hin | apply String.eqb_refl].
Qed.

Lemma not_interval_feature (feature : string) :
  ~ In feature INTERVAL_FEATURES -> is_interval_feature feature = false.
Proof.
  intros H. destruct (is_interval_feature feature) eqn:E; [|reflexivity].
  apply is_interval_feature_In in E. contradiction.
Qed.

Lemma load_intervals_unknown (fs : DataDir) (feature : string) :
  ~ In feature INTERVAL_FEATURES ->
  load_intervals fs feature = Raise (ValueError invalid_feature_msg).
Proof.
  intros H. unfold load_intervals.
  rewrite (not_interval_feature _ H). reflexivity.
Qed.







(** C8: a recognized feature whose directory of interval files holds no file
    makes [load_intervals] raise ValueError("Directory is empty; no file
    found."); no table is returned. *)
Theorem C8_empty_directory_rejected (fs : DataDir) (feature : string) :
  In feature INTERVAL_FEATURES ->
  listdir fs (path_join (data_dir fs) ["intervals"; feature]) = Some [] ->
  load_intervals fs feature = Raise (ValueError empty_directory_msg)
  /\ is_ok (load_intervals fs feature) = false.
Proof.
  intros Hin Hdir.
  assert (H : load_intervals fs feature = Raise (ValueError empty_directory_msg)).
  { unfold load_intervals. apply is_interval_feature_In in Hin. rewrite Hin.
    cbn [negb]. unfold os_listdir. rewrite Hdir. reflexivity. }
  rewrite H. split; reflexivity.
Qed.

Lemma C8_empty_directory_rejected_witness :
  load_intervals sample_dir "IS" = Raise (ValueError empty_directory_msg)
  /\ is_ok (load_intervals sample_dir "IS") = false.
Proof.
  apply (C8_empty_directory_rejected sample_dir "IS").
  - simpl. tauto.
  - reflexivity.
Defined.


Lemma for_each_app {A S : Type} (body : S -> A -> result S) (xs ys : list A) (acc : S) :
  for_each body (xs ++ ys) acc = (mid <- for_each body xs acc ;; for_each body ys mid).
Proof.
  revert acc. induction xs as [|x xs IH]; simpl; intros acc; [reflexivity|].
  destruct (body acc x); simpl; [apply IH | reflexivity].
Qed.




(** ** Column assignment *)

Lemma columns_df_set_in (df : DataFrame) (name : string) (s : Series) :
  In name (columns df) -> columns (df_set df name s) = columns df.
Proof.
  induction df as [|[n old] rest IH]; simpl; [contradiction|].
  intros Hin. destruct (String.eqb n name) eqn:E; simpl; [reflexivity|].
  f_equal. apply IH. destruct Hin as [Heq|Hin]; [|exact Hin].
  apply String.eqb_neq in E. contradiction.
Qed.

Lemma columns_df_set_notin (df : DataFrame) (name : string) (s : Series) :
  ~ In name (columns df) -> columns (df_set df name s) = columns df ++ [name].
Proof.
  induction df as [|[n old] rest IH]; simpl; [reflexivity|].
  intros Hnin. destruct (String.eqb n name) eqn:E.
  - apply String.eqb_eq in E. exfalso. apply Hnin. left. exact E.
  - simpl. f_equal. apply IH. intros Hin. apply Hnin. right. exact Hin.
Qed.

Lemma df_get_df_set_same (df : DataFrame) (name : string) (s : Series) :
  df_get (df_set df name s) name = Some s.
Proof.
  induction df as [|[n old] rest IH]; simpl.
  - rewrite String.eqb_refl. reflexivity.
  - destruct (String.eqb n name) eqn:E; simpl; rewrite E; [reflexivity | exact IH].
Qed.

Lemma df_get_df_set_other (df : DataFrame) (name c : string) (s : Series) :
  c <> name -> df_get (df_set df name s) c = df_get df c.
Proof.
  intros Hne. induction df as [|[n old] rest IH]; simpl.
  - destruct (String.eqb name c) eqn:E; [|reflexivity].
    apply String.eqb_eq in E. congruence.
  - destruct (String.eqb n name) eqn:E; simpl.
    + apply String.eqb_eq in E. subst n.
      destruct (String.eqb name c) eqn:E'; [|reflexivity].
      apply String.eqb_eq in E'. congruence.
    + rewrite IH. reflexivity.
Qed.

Lemma df_get_In (df : DataFrame) (name : string) (s : Series) :
  df_get df name = Some s -> In (name, s) df.
Proof.
  induction df as [|[n old] rest IH]; simpl; [discriminate|].
  destruct (String.eqb n name) eqn:E.
  - intros H. inversion H; subst. apply String.eqb_eq in E. subst. left. reflexivity.
  - intros H. right. apply IH. exact H.
Qed.

Lemma df_get_columns (df : DataFrame) (name : string) (s : Series) :
  df_get df name = Some s -> In name (columns df).
Proof.
  intros H. apply df_get_In in H. unfold columns.
  change name with (fst (name, s)). apply in_map. exact H.
Qed.

Lemma uniform_df_set (n : nat) (df : DataFrame) (name : string) (s : Series) :
  uniform n df -> series_len s = n -> uniform n (df_set df name s).
Proof.
  unfold uniform. intros Hdf Hs.
  induction df as [|[c old] rest IH]; simpl.
  - constructor; [exact Hs | constructor].
  - inversion Hdf as [|? ? Hc Hrest]; subst.
    destruct (String.eqb c name); constructor; auto.
Qed.

Lemma uniform_nrows (n : nat) (df : DataFrame) :
  uniform n df -> df <> [] -> nrows df = n.
Proof.
  intros H Hne. destruct df as [|[c s] rest]; [contradiction|].
  inversion H; subst. reflexivity.
Qed.

Lemma df_set_nonempty (df : DataFrame) (name : string) (s : Series) :
  df_set df name s <> [].
Proof.
  destruct df as [|[c old] rest]; simpl; [discriminate|].
  destruct (String.eqb c name); discriminate.
Qed.

Lemma uniform_reindex_nan (n : nat) (df : DataFrame) : uniform n (reindex_nan n df).
Proof.
  unfold uniform, reindex_nan. apply Forall_forall.
  intros c Hin. apply in_map_iff in Hin. destruct Hin as [c0 [<- _]].
  simpl. apply repeat_length.
Qed.

Lemma columns_reindex_nan (n : nat) (df : DataFrame) :
  columns (reindex_nan n df) = columns df.
Proof.
  unfold columns, reindex_nan. rewrite map_map. reflexivity.
Qed.

(** A successful array assignment leaves a rectangular table with the
    assigned name among its columns. *)
Lemma setitem_ok (df df' : DataFrame) (name : string) (value : Series) :
  uniform (nrows df) df ->
  setitem df name value = Ok df' ->
  uniform (nrows df') df' /\ df' <> []
  /\ ((In name (columns df) /\ columns df' = columns df)
      \/ (~ In name (columns df) /\ columns df' = columns df ++ [name])).
Proof.
  intros Hu. unfold setitem.
  assert (Hcols : forall d, columns d = columns df ->
            (In name (columns df) /\ columns (df_set d name value) = columns df)
            \/ (~ In name (columns df)
                /\ columns (df_set d name value) = columns df ++ [name])).
  { intros d Hd. destruct (in_dec string_dec name (columns df)) as [Hin|Hnin].
    - left. split; [exact Hin|]. rewrite columns_df_set_in; rewrite Hd; auto.
    - right. split; [exact Hnin|]. rewrite columns_df_set_notin; rewrite Hd; auto. }
  destruct (Nat.eqb (nrows df) 0) eqn:E0.
  - intros H. inversion H; subst df'. clear H.
    assert (Hu' : uniform (series_len value)
                    (df_set (reindex_nan (series_len value) df) name value)).
    { apply uniform_df_set; [apply uniform_reindex_nan | reflexivity]. }
    split; [|split].
    + rewrite (uniform_nrows _ _ Hu' (df_set_nonempty _ _ _)). exact Hu'.
    + apply df_set_nonempty.
    + apply Hcols. apply columns_reindex_nan.
  - destruct (Nat.eqb (series_len value) (nrows df)) eqn:E1; [|discriminate].
    apply Nat.eqb_eq in E1.
    intros H. inversion H; subst df'. clear H.
    assert (Hu' : uniform (nrows df) (df_set df name value)).
    { apply uniform_df_set; [exact Hu | exact E1]. }
    split; [|split].
    + rewrite (uniform_nrows _ _ Hu' (df_set_nonempty _ _ _)). exact Hu'.
    + apply df_set_nonempty.
    + apply Hcols. reflexivity.
Qed.

(** The table of [load_movement] has the columns t, x, y, isHB, all of one
    length. *)
Lemma load_movement_shape (fs : DataDir) (strain mouse day : pyval)
  (movements : DataFrame) :
  load_movement fs strain mouse day = Ok movements ->
  columns movements = movement_columns
  /\ uniform (nrows movements) movements /\ movements <> [].
Proof.
  unfold load_movement.
  destruct (any [py_lt0 strain; py_lt0 mouse; py_lt0 day]); [discriminate|].
  destruct (any [type_is_not_int strain; type_is_not_int mouse; type_is_not_int day]);
    [discriminate|].
  repeat match goal with
  | |- bind (load_with ?l ?p) _ = Ok _ -> _ =>
      destruct (load_with l p); cbn [bind]; [|discriminate]
  end.
  destruct (setitem [] "t" _) as [d1|] eqn:H1; cbn [bind]; [|discriminate].
  destruct (setitem d1 "x" _) as [d2|] eqn:H2; cbn [bind]; [|discriminate].
  destruct (setitem d2 "y" _) as [d3|] eqn:H3; cbn [bind]; [|discriminate].
  destruct (setitem d3 "isHB" _) as [d4|] eqn:H4; cbn [bind]; [|discriminate].
  intros H; inversion H; subst d4. clear H.
  apply setitem_ok in H1; [|constructor]. destruct H1 as [U1 [_ C1]].
  apply setitem_ok in H2; [|exact U1]. destruct H2 as [U2 [_ C2]].
  apply setitem_ok in H3; [|exact U2]. destruct H3 as [U3 [_ C3]].
  apply setitem_ok in H4; [|exact U3]. destruct H4 as [U4 [N4 C4]].
  split; [|split; assumption].
  assert (E1 : columns d1 = ["t"]).
  { destruct C1 as [[F _]|[_ E]]; [destruct F | exact E]. }
  assert (E2 : columns d2 = ["t"; "x"]).
  { rewrite E1 in C2. destruct C2 as [[F _]|[_ E]]; [|exact E].
    simpl in F. destruct F as [F|[]]. discriminate F. }
  assert (E3 : columns d3 = ["t"; "x"; "y"]).
  { rewrite E2 in C3. destruct C3 as [[F _]|[_ E]]; [|exact E].
    simpl in F. repeat (destruct F as [F|F]; [discriminate F|]). destruct F. }
  rewrite E3 in C4. destruct C4 as [[F _]|[_ E]]; [|exact E].
  simpl in F. repeat (destruct F as [F|F]; [discriminate F|]). destruct F.
Qed.

(** ** The annotation loop *)

Lemma existsb_eqb_In (f : string) (seen : list string) :
  existsb (String.eqb f) seen = true <-> In f seen.
Proof.
  rewrite existsb_exists. split.
  - intros [x [Hin Heq]]. apply String.eqb_eq in Heq. subst. exact Hin.
  - intros Hin. exists f. split; [exact Hin | apply String.eqb_refl].
Qed.






Lemma t_is_no_feature (f : string) : In f INTERVAL_FEATURES -> f <> "t".
Proof.
  simpl. intros H Heq. subst f.
  repeat (destruct H as [H|H]; [discriminate H|]). exact H.
Qed.







(** ** Worked examples *)

Example load_movement_sample :
  load_movement sample_dir (PyInt 1) (PyInt 1) (PyInt 1) = Ok sample_movements.
Proof. vm_compute. reflexivity. Qed.

(** Two disjoint intervals (1, 2) and (5, 6) against the times
    0, 1.5, 3, 5.5, 7. *)
Example annotate_sample :
  load_movement_and_intervals sample_dir (PyInt 1) (PyInt 1) (PyInt 1) ["F"; "AS"]
  = Ok sample_annotated.
Proof. vm_compute. reflexivity. Qed.

Example load_intervals_sorted :
  load_intervals sample_dir "AS"
  = Ok [mkRow 0 0 0 0 10; mkRow 1 1 1 1 2; mkRow 1 1 1 5 6].
Proof. vm_compute. reflexivity. Qed.

Example missing_directory :
  load_intervals sample_dir "W" = Raise (OSError "data/intervals/W").
Proof. vm_compute. reflexivity. Qed.

(** The example of the docstring of [_lookup_intervals]. *)
#[warnings="-inexact-float"] Example lookup_docstring :
  _lookup_intervals [1.5; 2.5; 3.5]%float
    [mkRow 0 0 0 1 1.99; mkRow 0 0 0 2 2.99]
  = [true; true; false].
Proof. vm_compute. reflexivity. Qed.

Example split_file_name :
  split "strain" "AS_strain12_mouse3_day4.npy" = ["AS_"; "12_mouse3_day4.npy"]
  /\ int_between "strain" "_mouse" "AS_strain12_mouse3_day4.npy" = Ok 12%Z
  /\ int_between "mouse" "_day" "AS_strain12_mouse3_day4.npy" = Ok 3%Z
  /\ int_between "day" ".npy" "AS_strain12_mouse3_day4.npy" = Ok 4%Z.
Proof. repeat split; vm_compute; reflexivity. Qed.

(** * Further properties of the code *)

(** ** The order of binary64 numbers *)

Lemma SFltb_irrefl (x : SpecFloat.spec_float) : SpecFloat.SFltb x x = false.
Proof.
  unfold SpecFloat.SFltb.
  destruct x as [s|s| |s m e]; simpl; try destruct s; try reflexivity;
    rewrite Z.compare_refl; change (Pos.compare_cont Eq m m) with (Pos.compare m m);
    rewrite Pos.compare_refl; reflexivity.
Qed.

Lemma SFltb_trans (x y z : SpecFloat.spec_float) :
  SpecFloat.SFltb x y = true -> SpecFloat.SFltb y z = true -> SpecFloat.SFltb x z = true.
Proof.
  unfold SpecFloat.SFltb.
  destruct x as [s1|s1| |s1 m1 e1]; destruct y as [s2|s2| |s2 m2 e2];
    destruct z as [s3|s3| |s3 m3 e3]; simpl;
    try destruct s1; try destruct s2; try destruct s3;
    try reflexivity; try discriminate; try (intros _ H; discriminate H);
    try (intros H _; discriminate H);
    change (Pos.compare_cont Eq m1 m2) with (Pos.compare m1 m2);
    change (Pos.compare_cont Eq m2 m3) with (Pos.compare m2 m3);
    change (Pos.compare_cont Eq m1 m3) with (Pos.compare m1 m3);
    destruct (Z.compare_spec e1 e2); destruct (Z.compare_spec e2 e3);
    destruct (Z.compare_spec e1 e3); simpl;
    try reflexivity; try discriminate; try (intros _ H; discriminate H);
    try (intros H _; discriminate H); try lia;
    destruct (Pos.compare_spec m1 m2); destruct (Pos.compare_spec m2 m3);
    destruct (Pos.compare_spec m1 m3); simpl;
    try reflexivity; try discriminate; try (intros _ H; discriminate H);
    try (intros H _; discriminate H); try lia.
Qed.

Lemma ltb_irrefl (x : float) : (x <? x)%float = false.
Proof. rewrite ltb_spec. apply SFltb_irrefl. Qed.

Lemma ltb_trans (x y z : float) :
  (x <? y)%float = true -> (y <? z)%float = true -> (x <? z)%float = true.
Proof. rewrite !ltb_spec. apply SFltb_trans. Qed.

Lemma in_interval_proper (t : float) (iv : Interval) :
  _in_interval t iv = true -> (start iv <? stop iv)%float = true.
Proof.
  intros H. apply in_interval_strict in H. destruct H as [H1 H2].
  eapply ltb_trans; eassumption.
Qed.

(** ** _in_interval and _lookup_intervals *)

(** X1: whatever the interval, a timestamp equal to its start or to its stop
    is not inside it. *)
Theorem in_interval_excludes_bounds (t other : float) :
  _in_interval t (mkInterval t other) = false
  /\ _in_interval t (mkInterval other t) = false.
Proof.
  unfold _in_interval. simpl. rewrite ltb_irrefl. split; [reflexivity|].
  apply andb_false_r.
Qed.

(** X2: an interval that contains some timestamp has its start strictly
    below its stop; an empty, reversed or NaN-bounded interval contains
    nothing. *)
Theorem in_interval_needs_proper_interval (t : float) (iv : Interval) :
  _in_interval t iv = true ->
  (start iv <? stop iv)%float = true
  /\ forall t', _in_interval t' (mkInterval (stop iv) (start iv)) = false.
Proof.
  intros H. pose proof (in_interval_proper t iv H) as Hlt.
  split; [exact Hlt|].
  intros t'. destruct (_in_interval t' (mkInterval (stop iv) (start iv))) eqn:E;
    [|reflexivity].
  apply in_interval_proper in E. simpl in E.
  pose proof (ltb_trans _ _ _ Hlt E) as Hrefl.
  rewrite ltb_irrefl in Hrefl. discriminate Hrefl.
Qed.

Lemma in_interval_needs_proper_interval_witness :
  (2 <? 3)%float = true
  /\ forall t', _in_interval t' (mkInterval 3 2) = false.
Proof.
  apply (in_interval_needs_proper_interval 2.5 (mkInterval 2 3)).
  vm_compute. reflexivity.
Defined.

(** X3: rows whose start is not below their stop never make a timestamp
    contained: dropping them leaves the batch query unchanged. *)
Theorem lookup_ignores_improper_rows (times : list float) (rows : list IntervalRow) :
  _lookup_intervals times (filter proper_row rows) = _lookup_intervals times rows.
Proof.
  unfold _lookup_intervals. apply map_ext. intros t.
  rewrite !contains_scan. unfold start_stop.
  induction rows as [|r rest IH]; simpl; [reflexivity|].
  destruct (proper_row r) eqn:E; simpl; rewrite IH; [reflexivity|].
  destruct (_in_interval t (mkInterval (row_start r) (row_stop r))) eqn:Hin;
    [|reflexivity].
  apply in_interval_proper in Hin. simpl in Hin.
  unfold proper_row in E. congruence.
Qed.

(** X4: the batch query depends on the set of rows only, not on their order
    nor on repetitions. *)
Theorem lookup_depends_on_row_set (times : list float) (rows rows' : list IntervalRow) :
  (forall r, In r rows <-> In r rows') ->
  _lookup_intervals times rows = _lookup_intervals times rows'.
Proof.
  intros Hsame. unfold _lookup_intervals. apply map_ext. intros t.
  rewrite !contains_scan.
  assert (Hiff : existsb (_in_interval t) (start_stop rows) = true
                 <-> existsb (_in_interval t) (start_stop rows') = true).
  { rewrite !existsb_exists. unfold start_stop.
    split; intros [iv [Hin Ht]]; exists iv; split; auto;
      apply in_map_iff in Hin; destruct Hin as [r [<- Hr]];
      apply in_map_iff; exists r; split; auto; apply Hsame; exact Hr. }
  destruct (existsb (_in_interval t) (start_stop rows));
    destruct (existsb (_in_interval t) (start_stop rows')); try reflexivity.
  - symmetry. apply Hiff. reflexivity.
  - apply Hiff. reflexivity.
Qed.

Lemma lookup_depends_on_row_set_witness :
  _lookup_intervals [0; 1.5; 3; 5.5; 7]%float [mkRow 1 1 1 1 2; mkRow 1 1 1 5 6]
  = _lookup_intervals [0; 1.5; 3; 5.5; 7]%float
      [mkRow 1 1 1 5 6; mkRow 1 1 1 1 2; mkRow 1 1 1 5 6].
Proof.
  apply lookup_depends_on_row_set.
  intros r. simpl. tauto.
Defined.

(** ** load_intervals: the sort and the rows *)

Ltac key_order :=
  unfold key_le, key_leb in *;
  repeat rewrite ?orb_true_iff, ?andb_true_iff, ?orb_false_iff, ?andb_false_iff,
    ?Z.ltb_lt, ?Z.eqb_eq, ?Z.leb_le, ?Z.ltb_ge, ?Z.eqb_neq, ?Z.leb_gt in *;
  lia.

Lemma key_le_trans (a b c : IntervalRow) : key_le a b -> key_le b c -> key_le a c.
Proof. intros H1 H2. key_order. Qed.

Lemma key_leb_total (a b : IntervalRow) : key_leb a b = false -> key_le b a.
Proof. intros H. key_order. Qed.

Lemma insert_row_perm (r : IntervalRow) (l : list IntervalRow) :
  Permutation (insert_row r l) (r :: l).
Proof.
  induction l as [|x rest IH]; simpl; [reflexivity|].
  destruct (key_leb r x); [reflexivity|].
  rewrite IH. apply perm_swap.
Qed.

Lemma sort_rows_perm (l : list IntervalRow) : Permutation (sort_rows l) l.
Proof.
  unfold sort_rows. induction l as [|x rest IH]; simpl; [reflexivity|].
  rewrite insert_row_perm. constructor. exact IH.
Qed.

Lemma insert_row_sorted (r : IntervalRow) (l : list IntervalRow) :
  StronglySorted key_le l -> StronglySorted key_le (insert_row r l).
Proof.
  induction l as [|x rest IH]; simpl; intros Hs.
  - constructor; constructor.
  - inversion Hs as [|? ? Hrest Hall]; subst.
    destruct (key_leb r x) eqn:E.
    + constructor; [exact Hs|]. constructor; [exact E|].
      rewrite Forall_forall in *. intros y Hy.
      eapply key_le_trans; [exact E | apply Hall; exact Hy].
    + constructor; [apply IH; exact Hrest|].
      assert (Hperm := insert_row_perm r rest).
      rewrite Forall_forall in *. intros y Hy.
      apply (Permutation_in _ Hperm) in Hy. destruct Hy as [<-|Hy].
      * apply key_leb_total. exact E.
      * apply Hall. exact Hy.
Qed.

Lemma sort_rows_sorted (l : list IntervalRow) : StronglySorted key_le (sort_rows l).
Proof.
  unfold sort_rows. induction l as [|x rest IH]; simpl; [constructor|].
  apply insert_row_sorted. exact IH.
Qed.

Lemma load_interval_file_acc (fs : DataDir) (feature : string)
  (dt : list IntervalRow) (item : string) :
  load_interval_file fs feature dt item
  = (rows <- file_rows fs feature item ;; Ok (dt ++ rows)).
Proof.
  unfold file_rows, load_interval_file.
  destruct (int_between "strain" "_mouse" item); cbn [bind]; [|reflexivity].
  destruct (int_between "mouse" "_day" item); cbn [bind]; [|reflexivity].
  destruct (int_between "day" ".npy" item); cbn [bind]; [|reflexivity].
  destruct (load_with _ _); cbn [bind]; reflexivity.
Qed.

(** What one file contributes: its two columns, under the three keys read
    from its name. *)
Lemma file_rows_ok (fs : DataDir) (feature item : string) (rows : list IntervalRow) :
  file_rows fs feature item = Ok rows ->
  exists s m d sub,
    int_between "strain" "_mouse" item = Ok s
    /\ int_between "mouse" "_day" item = Ok m
    /\ int_between "day" ".npy" item = Ok d
    /\ np_load_pairs fs (path_join (data_dir fs) ["intervals"; feature; item]) = Some sub
    /\ rows = keyed_rows s m d sub.
Proof.
  unfold file_rows, load_interval_file.
  destruct (int_between "strain" "_mouse" item) as [s|]; cbn [bind]; [|discriminate].
  destruct (int_between "mouse" "_day" item) as [m|]; cbn [bind]; [|discriminate].
  destruct (int_between "day" ".npy" item) as [d|]; cbn [bind]; [|discriminate].
  unfold load_with.
  destruct (np_load_pairs fs _) as [sub|] eqn:Hsub; cbn [bind]; [|discriminate].
  intros H. inversion H; subst rows.
  exists s, m, d, sub. repeat split; auto.
Qed.

Lemma files_concat (fs : DataDir) (feature : string) :
  forall names dt out,
    for_each (load_interval_file fs feature) names dt = Ok out ->
    exists per_file,
      Forall2 (fun item rows => file_rows fs feature item = Ok rows) names per_file
      /\ out = dt ++ concat per_file.
Proof.
  induction names as [|item rest IH]; intros dt out Hrun; simpl in Hrun.
  - inversion Hrun; subst. exists []. split; [constructor|].
    simpl. rewrite app_nil_r. reflexivity.
  - rewrite load_interval_file_acc in Hrun.
    destruct (file_rows fs feature item) as [rows|] eqn:Hfile; cbn [bind] in Hrun;
      [|discriminate].
    destruct (IH _ _ Hrun) as [per_file [Hall Hout]].
    exists (rows :: per_file). split; [constructor; assumption|].
    simpl. rewrite Hout, <- app_assoc. reflexivity.
Qed.

Lemma load_intervals_ok (fs : DataDir) (feature : string) (rows : list IntervalRow) :
  load_intervals fs feature = Ok rows ->
  exists names dt,
    listdir fs (path_join (data_dir fs) ["intervals"; feature]) = Some names
    /\ names <> []
    /\ for_each (load_interval_file fs feature) names [] = Ok dt
    /\ rows = sort_rows dt.
Proof.
  unfold load_intervals.
  destruct (negb (is_interval_feature feature)); [discriminate|].
  unfold os_listdir.
  destruct (listdir fs _) as [names|] eqn:Hdir; cbn [bind]; [|discriminate].
  destruct (Nat.eqb (length names) 0) eqn:Hlen; [discriminate|].
  destruct (for_each _ names []) as [dt|] eqn:Hrun; cbn [bind]; [|discriminate].
  intros H. inversion H; subst rows.
  exists names, dt. split; [reflexivity|].
  split; [intros ->; discriminate Hlen|].
  split; [exact Hrun | reflexivity].
Qed.

(** X5: the table returned by [load_intervals] is sorted by strain, then
    mouse, then day. *)
Theorem load_intervals_sorted_by_key (fs : DataDir) (feature : string)
  (rows : list IntervalRow) :
  load_intervals fs feature = Ok rows -> StronglySorted key_le rows.
Proof.
  intros H. destruct (load_intervals_ok _ _ _ H) as [names [dt [_ [_ [_ ->]]]]].
  apply sort_rows_sorted.
Qed.

Lemma load_intervals_sorted_by_key_witness :
  StronglySorted key_le [mkRow 0 0 0 0 10; mkRow 1 1 1 1 2; mkRow 1 1 1 5 6].
Proof.
  apply (load_intervals_sorted_by_key sample_dir "AS").
  vm_compute. reflexivity.
Defined.

(** X6: the table returned by [load_intervals] holds, up to the order of the
    rows, exactly the rows of the listed files: each file gives one row per
    pair it holds, under the strain, mouse and day read from its name. *)
Theorem load_intervals_rows_from_files (fs : DataDir) (feature : string)
  (rows : list IntervalRow) :
  load_intervals fs feature = Ok rows ->
  exists names per_file,
    listdir fs (path_join (data_dir fs) ["intervals"; feature]) = Some names
    /\ names <> []
    /\ Forall2 (fun item file =>
                  exists s m d sub,
                    int_between "strain" "_mouse" item = Ok s
                    /\ int_between "mouse" "_day" item = Ok m
                    /\ int_between "day" ".npy" item = Ok d
                    /\ np_load_pairs fs
                         (path_join (data_dir fs) ["intervals"; feature; item])
                       = Some sub
                    /\ file = keyed_rows s m d sub)
         names per_file
    /\ Permutation rows (concat per_file)
    /\ length rows = length (concat per_file).
Proof.
  intros H. destruct (load_intervals_ok _ _ _ H) as [names [dt [Hdir [Hne [Hrun ->]]]]].
  destruct (files_concat _ _ _ _ _ Hrun) as [per_file [Hall Hout]].
  simpl in Hout. subst dt.
  exists names, per_file. split; [exact Hdir|]. split; [exact Hne|].
  split.
  { eapply Forall2_impl; [|exact Hall].
    intros item file Hfile. apply file_rows_ok. exact Hfile. }
  split; [apply sort_rows_perm|].
  apply Permutation_length. apply sort_rows_perm.
Qed.

Lemma load_intervals_rows_from_files_witness :
  exists names per_file,
    listdir sample_dir (path_join (data_dir sample_dir) ["intervals"; "AS"]) = Some names
    /\ names <> []
    /\ Forall2 (fun item file =>
                  exists s m d sub,
                    int_between "strain" "_mouse" item = Ok s
                    /\ int_between "mouse" "_day" item = Ok m
                    /\ int_between "day" ".npy" item = Ok d
                    /\ np_load_pairs sample_dir
                         (path_join (data_dir sample_dir) ["intervals"; "AS"; item])
                       = Some sub
                    /\ file = keyed_rows s m d sub)
         names per_file
    /\ Permutation [mkRow 0 0 0 0 10; mkRow 1 1 1 1 2; mkRow 1 1 1 5 6]
         (concat per_file)
    /\ length [mkRow 0 0 0 0 10; mkRow 1 1 1 1 2; mkRow 1 1 1 5 6]
       = length (concat per_file).
Proof.
  apply (load_intervals_rows_from_files sample_dir "AS").
  vm_compute. reflexivity.
Defined.

Lemma for_each_first_failure {A S : Type} (body : S -> A -> result S)
  (good : list A) (bad : A) (rest : list A) (e : exception) :
  (forall acc, body acc bad = Raise e) ->
  (forall x, In x good -> forall acc, is_ok (body acc x) = true) ->
  forall acc, for_each body (good ++ bad :: rest) acc = Raise e.
Proof.
  intros Hbad. induction good as [|x good IH]; intros Hgood acc; simpl.
  - rewrite Hbad. reflexivity.
  - pose proof (Hgood x (or_introl eq_refl) acc) as Hx.
    destruct (body acc x) as [acc'|]; [|discriminate]. cbn [bind].
    apply IH. intros y Hy. apply Hgood. right. exact Hy.
Qed.

(** X7: no partial table: when a listed file cannot be read (its name does
    not parse, or its array does not load) and the files listed before it
    can, [load_intervals] raises the exception of that file, whatever
    follows in the listing. *)
Theorem load_intervals_first_bad_file (fs : DataDir) (feature : string)
  (good : list string) (bad : string) (rest : list string) (e : exception) :
  In feature INTERVAL_FEATURES ->
  listdir fs (path_join (data_dir fs) ["intervals"; feature])
  = Some (good ++ bad :: rest) ->
  forallb (fun item => is_ok (load_interval_file fs feature [] item)) good = true ->
  load_interval_file fs feature [] bad = Raise e ->
  load_intervals fs feature = Raise e.
Proof.
  intros Hin Hdir Hgood Hbad. unfold load_intervals.
  apply is_interval_feature_In in Hin. rewrite Hin. cbn [negb].
  unfold os_listdir. rewrite Hdir. cbn [bind].
  destruct (Nat.eqb (length (good ++ bad :: rest)) 0) eqn:Hlen.
  { apply Nat.eqb_eq in Hlen. rewrite length_app in Hlen. simpl in Hlen. lia. }
  rewrite (for_each_first_failure (load_interval_file fs feature) good bad rest e).
  - reflexivity.
  - intros acc. rewrite load_interval_file_acc. unfold file_rows.
    rewrite Hbad. reflexivity.
  - intros x Hx acc. rewrite load_interval_file_acc. unfold file_rows.
    rewrite forallb_forall in Hgood. specialize (Hgood x Hx).
    destruct (load_interval_file fs feature [] x); [reflexivity | discriminate].
Qed.

Lemma load_intervals_first_bad_file_witness :
  load_intervals faulty_dir "AS" = Raise (IndexError "list index out of range").
Proof.
  apply (load_intervals_first_bad_file faulty_dir "AS"
           ["AS_strain0_mouse0_day0.npy"] "notes.txt" ["AS_strain1_mouse1_day1.npy"]).
  - simpl. tauto.
  - vm_compute. reflexivity.
  - vm_compute. reflexivity.
  - vm_compute. reflexivity.
Defined.

(** X8: for a recognized feature whose directory cannot be listed,
    [load_intervals] raises the OSError of [os.listdir] on that directory,
    not the ValueError of the empty directory. *)
Theorem load_intervals_missing_directory (fs : DataDir) (feature : string) :
  In feature INTERVAL_FEATURES ->
  listdir fs (path_join (data_dir fs) ["intervals"; feature]) = None ->
  load_intervals fs feature
  = Raise (OSError (path_join (data_dir fs) ["intervals"; feature]))
  /\ load_intervals fs feature <> Raise (ValueError empty_directory_msg).
Proof.
  intros Hin Hdir.
  assert (H : load_intervals fs feature
              = Raise (OSError (path_join (data_dir fs) ["intervals"; feature]))).
  { unfold load_intervals.
    apply is_interval_feature_In in Hin. rewrite Hin. cbn [negb].
    unfold os_listdir. rewrite Hdir. reflexivity. }
  rewrite H. split; [reflexivity | discriminate].
Qed.

Lemma load_intervals_missing_directory_witness :
  load_intervals sample_dir "W" = Raise (OSError "data/intervals/W")
  /\ load_intervals sample_dir "W" <> Raise (ValueError empty_directory_msg).
Proof.
  apply (load_intervals_missing_directory sample_dir "W").
  - simpl. tauto.
  - reflexivity.
Defined.

(** ** Decimal numerals and file names *)

Ltac digit_step :=
  cbn [NilEmpty.string_of_uint digits_go Pos.of_uint_acc Pos.of_uint];
  match goal with
  | |- context [digit_of ?c] =>
      let v := eval vm_compute in (digit_of c) in
      change (digit_of c) with v
  end;
  cbv beta iota.

Lemma digits_go_acc (d : Decimal.uint) (acc : positive) :
  digits_go (NilEmpty.string_of_uint d) (Zpos acc) = Some (Zpos (Pos.of_uint_acc d acc)).
Proof.
  revert acc. induction d; intros acc; [reflexivity| ..];
    digit_step; rewrite <- IHd; f_equal; lia.
Qed.

Lemma digits_go_zero (d : Decimal.uint) :
  digits_go (NilEmpty.string_of_uint d) 0%Z = Some (Z.of_N (Pos.of_uint d)).
Proof.
  induction d; [reflexivity| ..]; digit_step;
    [exact IHd | ..]; apply digits_go_acc.
Qed.

(** [int] reads back what [format] writes for a nonnegative integer. *)
Lemma py_int_format (z : Z) :
  (0 <= z)%Z -> py_int (py_format (PyInt z)) = Ok z.
Proof.
  intros Hz. unfold py_format. destruct z as [|p|p]; [reflexivity| |lia].
  unfold Z.to_int, NilZero.string_of_int, NilZero.string_of_uint.
  pose proof (Unsigned.to_uint_nonnil p) as Hnil.
  pose proof (Unsigned.of_to p) as Hof.
  pose proof (digits_go_zero (Pos.to_uint p)) as Hd.
  rewrite Hof in Hd. cbn [Z.of_N] in Hd.
  destruct (Pos.to_uint p) as [|d|d|d|d|d|d|d|d|d|d]; [contradiction| ..];
    unfold py_int, digits; cbn [NilEmpty.string_of_uint] in *;
    rewrite Hd; reflexivity.
Qed.

Lemma format_is_numeral (z : Z) :
  (0 <= z)%Z -> exists u, py_format (PyInt z) = NilEmpty.string_of_uint u.
Proof.
  intros Hz. unfold py_format. destruct z as [|p|p]; [| |lia].
  - exists (Decimal.D0 Decimal.Nil). reflexivity.
  - exists (Pos.to_uint p).
    unfold Z.to_int, NilZero.string_of_int, NilZero.string_of_uint.
    pose proof (Unsigned.to_uint_nonnil p) as Hnil.
    destruct (Pos.to_uint p); [contradiction| ..]; reflexivity.
Qed.

Lemma append_nil_r (s : string) : (s ++ "")%string = s.
Proof. induction s; simpl; [reflexivity | rewrite IHs; reflexivity]. Qed.

Lemma append_assoc (a b c : string) : ((a ++ b) ++ c = a ++ (b ++ c))%string.
Proof. induction a; simpl; [reflexivity | rewrite IHa; reflexivity]. Qed.

Lemma append_inj_l (a b c : string) : (a ++ b = a ++ c)%string -> b = c.
Proof.
  induction a as [|x a IH]; simpl; intros H; [exact H|].
  inversion H. apply IH. assumption.
Qed.

Lemma prefix_nil (s : string) : String.prefix "" s = true.
Proof. destruct s; reflexivity. Qed.

(** A stretch without the first character of the separator holds no
    occurrence of it: the scan of [split] passes over it. *)
Lemma split_go_lacks (c0 : ascii) (sep' : string) (u v acc : string) :
  lacks c0 u = true ->
  split_go (String c0 sep') (u ++ v)%string acc 0
  = split_go (String c0 sep') v (acc ++ u)%string 0.
Proof.
  revert acc. induction u as [|a u IH]; intros acc Hu; simpl in Hu.
  - simpl. rewrite append_nil_r. reflexivity.
  - apply andb_true_iff in Hu. destruct Hu as [Ha Hu].
    cbn [append split_go prefix].
    destruct (ascii_dec c0 a) as [->|Hne].
    + rewrite Ascii.eqb_refl in Ha. discriminate Ha.
    + rewrite IH by exact Hu. rewrite append_assoc. reflexivity.
Qed.

Lemma lacks_digits (c : ascii) (u : Decimal.uint) :
  digit_of c = None -> lacks c (NilEmpty.string_of_uint u) = true.
Proof.
  intros Hc. induction u; cbn [lacks NilEmpty.string_of_uint]; [reflexivity| ..];
    rewrite IHu;
    match goal with
    | |- negb (Ascii.eqb ?a c) && true = true =>
        destruct (Ascii.eqb_spec a c) as [<-|]; [discriminate Hc | reflexivity]
    end.
Qed.

(** Runs [split_go] over the literal characters of a name and passes over
    its numerals and its prefix. *)
Ltac scan :=
  repeat first
    [ rewrite prefix_nil
    | rewrite split_go_lacks by (assumption || (apply lacks_digits; reflexivity))
    | progress cbn [split_go prefix append String.length Nat.sub ascii_dec
                    ascii_rec ascii_rect Bool.bool_dec bool_rec bool_rect
                    sumbool_rec sumbool_rect eq_rec_r eq_rec eq_rect eq_sym
                    f_equal] ];
  rewrite ?append_assoc; cbn [append getitem nth_error bind].

Lemma file_name_keys (prefix : string) (s m d : Z) :
  (0 <= s)%Z -> (0 <= m)%Z -> (0 <= d)%Z ->
  lacks "s" prefix = true -> lacks "m" prefix = true -> lacks "d" prefix = true ->
  int_between "strain" "_mouse" (interval_file_name prefix s m d) = Ok s
  /\ int_between "mouse" "_day" (interval_file_name prefix s m d) = Ok m
  /\ int_between "day" ".npy" (interval_file_name prefix s m d) = Ok d.
Proof.
  intros Hs Hm Hd Ps Pm Pd.
  pose proof (py_int_format s Hs) as Is.
  pose proof (py_int_format m Hm) as Im.
  pose proof (py_int_format d Hd) as Id.
  unfold interval_file_name.
  destruct (format_is_numeral s Hs) as [us Es].
  destruct (format_is_numeral m Hm) as [um Em].
  destruct (format_is_numeral d Hd) as [ud Ed].
  rewrite Es, Em, Ed in *.
  unfold int_between, split.
  split; [|split].
  - scan. scan. exact Is.
  - scan. scan. exact Im.
  - scan. scan. exact Id.
Qed.

Lemma feature_lacks_smd (feature : string) :
  In feature INTERVAL_FEATURES ->
  lacks "s" feature = true /\ lacks "m" feature = true /\ lacks "d" feature = true.
Proof.
  simpl. intros H.
  repeat (destruct H as [<-|H]; [repeat split; reflexivity|]). destruct H.
Qed.

(** X9: the three keys written into a file name of the form
    prefix_strain<s>_mouse<m>_day<d>.npy, nonnegative and in decimal, are
    the ones [load_intervals] reads back from it, for any prefix without the
    letters s, m and d, the six feature names among them. *)
Theorem file_name_round_trip (prefix : string) (s m d : Z) :
  (0 <= s)%Z -> (0 <= m)%Z -> (0 <= d)%Z ->
  (In prefix INTERVAL_FEATURES
   \/ (lacks "s" prefix = true /\ lacks "m" prefix = true /\ lacks "d" prefix = true)) ->
  int_between "strain" "_mouse" (interval_file_name prefix s m d) = Ok s
  /\ int_between "mouse" "_day" (interval_file_name prefix s m d) = Ok m
  /\ int_between "day" ".npy" (interval_file_name prefix s m d) = Ok d.
Proof.
  intros Hs Hm Hd Hp.
  assert (H : lacks "s" prefix = true /\ lacks "m" prefix = true
              /\ lacks "d" prefix = true).
  { destruct Hp as [Hin|H]; [apply feature_lacks_smd; exact Hin | exact H]. }
  destruct H as [Ps [Pm Pd]]. apply file_name_keys; assumption.
Qed.

Lemma file_name_round_trip_witness :
  int_between "strain" "_mouse" (interval_file_name "M_AS" 12 3 40) = Ok 12%Z
  /\ int_between "mouse" "_day" (interval_file_name "M_AS" 12 3 40) = Ok 3%Z
  /\ int_between "day" ".npy" (interval_file_name "M_AS" 12 3 40) = Ok 40%Z.
Proof.
  apply (file_name_round_trip "M_AS" 12 3 40); try lia.
  left. simpl. tauto.
Defined.

Lemma well_named_file_rows (fs : DataDir) (feature : string) (s m d : Z)
  (sub : list (float * float)) (dt : list IntervalRow) :
  In feature INTERVAL_FEATURES ->
  (0 <= s)%Z -> (0 <= m)%Z -> (0 <= d)%Z ->
  np_load_pairs fs (path_join (data_dir fs)
                      ["intervals"; feature; interval_file_name feature s m d])
  = Some sub ->
  load_interval_file fs feature dt (interval_file_name feature s m d)
  = Ok (dt ++ keyed_rows s m d sub).
Proof.
  intros Hin Hs Hm Hd Hload.
  destruct (feature_lacks_smd feature Hin) as [Ps [Pm Pd]].
  destruct (file_name_keys feature s m d Hs Hm Hd Ps Pm Pd) as [E1 [E2 E3]].
  unfold load_interval_file. rewrite E1, E2, E3. cbn [bind].
  unfold load_with. rewrite Hload. reflexivity.
Qed.

Lemma load_named_files (fs : DataDir) (feature : string) :
  In feature INTERVAL_FEATURES ->
  forall files dt,
    Forall (kf_stored fs feature) files ->
    for_each (load_interval_file fs feature) (map (kf_name feature) files) dt
    = Ok (dt ++ flat_map kf_rows files).
Proof.
  intros Hin. induction files as [|f rest IH]; intros dt Hall; simpl.
  - rewrite app_nil_r. reflexivity.
  - inversion Hall as [|? ? [Hs [Hm [Hd Hload]]] Hrest]; subst.
    unfold kf_name at 1.
    rewrite (well_named_file_rows fs feature _ _ _ _ dt Hin Hs Hm Hd Hload).
    cbn [bind]. rewrite IH by exact Hrest.
    rewrite <- app_assoc. reflexivity.
Qed.

(** X10: when the directory of a recognized feature lists files named by
    the convention, each loadable, [load_intervals] returns the rows of all
    the files, each under the keys of its file name, sorted by key. *)
Theorem load_intervals_by_convention (fs : DataDir) (feature : string)
  (files : list KeyedFile) :
  In feature INTERVAL_FEATURES ->
  files <> [] ->
  listdir fs (path_join (data_dir fs) ["intervals"; feature])
  = Some (map (kf_name feature) files) ->
  Forall (kf_stored fs feature) files ->
  load_intervals fs feature = Ok (sort_rows (flat_map kf_rows files)).
Proof.
  intros Hin Hne Hdir Hall. unfold load_intervals.
  pose proof Hin as Hin'. apply is_interval_feature_In in Hin'. rewrite Hin'. cbn [negb].
  unfold os_listdir. rewrite Hdir. cbn [bind].
  destruct files as [|f rest]; [contradiction|].
  cbn [map length Nat.eqb].
  change (kf_name feature f :: map (kf_name feature) rest)
    with (map (kf_name feature) (f :: rest)).
  rewrite (load_named_files fs feature Hin (f :: rest) [] Hall). reflexivity.
Qed.

Lemma load_intervals_by_convention_witness :
  load_intervals sample_dir "AS"
  = Ok (sort_rows (flat_map kf_rows
                     [mkKeyedFile 1 1 1 [(1, 2); (5, 6)]%float;
                      mkKeyedFile 0 0 0 [(0, 10)]%float])).
Proof.
  apply (load_intervals_by_convention sample_dir "AS").
  - simpl. tauto.
  - discriminate.
  - vm_compute. reflexivity.
  - repeat constructor; try (vm_compute; discriminate).
Defined.

(** ** load_movement: files and columns *)

Lemma load_movement_valid (fs : DataDir) (s m d : Z) :
  (0 <= s)%Z -> (0 <= m)%Z -> (0 <= d)%Z ->
  load_movement fs (PyInt s) (PyInt m) (PyInt d)
  = (NHB <- load_with (np_load_bool fs)
              (coord_file fs "C_idx_HB" (PyInt s) (PyInt m) (PyInt d)) ;;
     CT <- load_with (np_load_float fs)
             (coord_file fs "CT" (PyInt s) (PyInt m) (PyInt d)) ;;
     CX <- load_with (np_load_float fs)
             (coord_file fs "CX" (PyInt s) (PyInt m) (PyInt d)) ;;
     CY <- load_with (np_load_float fs)
             (coord_file fs "CY" (PyInt s) (PyInt m) (PyInt d)) ;;
     dt <- setitem [] "t" (FloatSeries CT) ;;
     dt <- setitem dt "x" (FloatSeries CX) ;;
     dt <- setitem dt "y" (FloatSeries CY) ;;
     dt <- setitem dt "isHB" (BoolSeries (map negb NHB)) ;;
     Ok dt).
Proof.
  intros Hs Hm Hd. destruct (nonneg_int_keys s m d Hs Hm Hd) as [Hv Ht].
  unfold load_movement. rewrite Hv, Ht. reflexivity.
Qed.

Lemma length_zero_nil {A : Type} (l : list A) : length l = 0 -> l = [].
Proof. destruct l; [reflexivity | discriminate]. Qed.

(** X11: for nonnegative integer keys whose four coordinate files load with
    one common length, [load_movement] returns the columns t, x, y of the
    files CT, CX, CY as they are, and isHB as the negation, entry by entry,
    of the file C_idx_HB. *)
Theorem load_movement_columns (fs : DataDir) (s m d : Z)
  (NHB : list bool) (CT CX CY : list float) :
  (0 <= s)%Z -> (0 <= m)%Z -> (0 <= d)%Z ->
  np_load_bool fs (coord_file fs "C_idx_HB" (PyInt s) (PyInt m) (PyInt d)) = Some NHB ->
  np_load_float fs (coord_file fs "CT" (PyInt s) (PyInt m) (PyInt d)) = Some CT ->
  np_load_float fs (coord_file fs "CX" (PyInt s) (PyInt m) (PyInt d)) = Some CX ->
  np_load_float fs (coord_file fs "CY" (PyInt s) (PyInt m) (PyInt d)) = Some CY ->
  length CX = length CT -> length CY = length CT -> length NHB = length CT ->
  load_movement fs (PyInt s) (PyInt m) (PyInt d)
  = Ok [("t", FloatSeries CT); ("x", FloatSeries CX); ("y", FloatSeries CY);
        ("isHB", BoolSeries (map negb NHB))].
Proof.
  intros Hs Hm Hd HHB HCT HCX HCY Lx Ly Lh.
  rewrite (load_movement_valid fs s m d Hs Hm Hd).
  unfold load_with. rewrite HHB, HCT, HCX, HCY. cbn [bind].
  destruct (length CT) as [|n] eqn:Ln.
  - apply length_zero_nil in Ln, Lx, Ly, Lh. subst. reflexivity.
  - unfold setitem. cbn [nrows series_len reindex_nan map df_set bind].
    cbn [Nat.eqb]. cbn [df_set String.eqb Ascii.eqb Bool.eqb bind nrows series_len].
    rewrite Ln. cbn [Nat.eqb bind].
    rewrite Lx, Nat.eqb_refl. cbn [bind df_set String.eqb Ascii.eqb Bool.eqb nrows series_len].
    rewrite Ln. cbn [Nat.eqb].
    rewrite Ly, Nat.eqb_refl. cbn [bind df_set String.eqb Ascii.eqb Bool.eqb nrows series_len].
    rewrite Ln. cbn [Nat.eqb].
    rewrite length_map, Lh, Nat.eqb_refl. reflexivity.
Qed.

Lemma load_movement_columns_witness :
  load_movement sample_dir (PyInt 1) (PyInt 1) (PyInt 1)
  = Ok [("t", FloatSeries [0; 1.5; 3; 5.5; 7]%float);
        ("x", FloatSeries [-6.25; -5.5; -5; -4.5; -4]%float);
        ("y", FloatSeries [34.5; 34; 33.25; 33; 32.5]%float);
        ("isHB", BoolSeries (map negb [true; false; false; true; true]))].
Proof.
  apply (load_movement_columns sample_dir 1 1 1); try lia; reflexivity.
Defined.

(** X12: for nonnegative integer keys, the first coordinate file that does
    not load, in the order C_idx_HB, CT, CX, CY, makes [load_movement] raise
    an IOError that names this file. *)
Theorem load_movement_missing_file (fs : DataDir) (s m d : Z) :
  (0 <= s)%Z -> (0 <= m)%Z -> (0 <= d)%Z ->
  let key_file kind := coord_file fs kind (PyInt s) (PyInt m) (PyInt d) in
  (np_load_bool fs (key_file "C_idx_HB") = None ->
   load_movement fs (PyInt s) (PyInt m) (PyInt d) = Raise (IOError (key_file "C_idx_HB")))
  /\ (np_load_bool fs (key_file "C_idx_HB") <> None ->
      np_load_float fs (key_file "CT") = None ->
      load_movement fs (PyInt s) (PyInt m) (PyInt d) = Raise (IOError (key_file "CT")))
  /\ (np_load_bool fs (key_file "C_idx_HB") <> None ->
      np_load_float fs (key_file "CT") <> None ->
      np_load_float fs (key_file "CX") = None ->
      load_movement fs (PyInt s) (PyInt m) (PyInt d) = Raise (IOError (key_file "CX")))
  /\ (np_load_bool fs (key_file "C_idx_HB") <> None ->
      np_load_float fs (key_file "CT") <> None ->
      np_load_float fs (key_file "CX") <> None ->
      np_load_float fs (key_file "CY") = None ->
      load_movement fs (PyInt s) (PyInt m) (PyInt d) = Raise (IOError (key_file "CY"))).
Proof.
  intros Hs Hm Hd key_file. subst key_file.
  rewrite (load_movement_valid fs s m d Hs Hm Hd). unfold load_with.
  destruct (np_load_bool fs _) as [NHB|];
    [|repeat split; intros; try reflexivity; contradiction].
  destruct (np_load_float fs (coord_file fs "CT" _ _ _)) as [CT|];
    [|repeat split; intros; try reflexivity; try discriminate; contradiction].
  destruct (np_load_float fs (coord_file fs "CX" _ _ _)) as [CX|];
    [|repeat split; intros; try reflexivity; try discriminate; contradiction].
  destruct (np_load_float fs (coord_file fs "CY" _ _ _)) as [CY|];
    repeat split; intros; try reflexivity; try discriminate; contradiction.
Qed.

Lemma load_movement_missing_file_witness :
  load_movement sample_dir (PyInt 0) (PyInt 0) (PyInt 0)
  = Raise (IOError "data/txy_coords/C_idx_HB/C_idx_HB_strain0_mouse0_day0.npy").
Proof.
  apply (proj1 (load_movement_missing_file sample_dir 0 0 0
                  (Z.le_refl 0) (Z.le_refl 0) (Z.le_refl 0))).
  reflexivity.
Defined.

(** X13: when the file CT is not empty and one of the files CX, CY,
    C_idx_HB has another length, [load_movement] raises the ValueError of
    the column assignment; no ragged table is returned. *)
Theorem load_movement_ragged (fs : DataDir) (s m d : Z)
  (NHB : list bool) (CT CX CY : list float) :
  (0 <= s)%Z -> (0 <= m)%Z -> (0 <= d)%Z ->
  np_load_bool fs (coord_file fs "C_idx_HB" (PyInt s) (PyInt m) (PyInt d)) = Some NHB ->
  np_load_float fs (coord_file fs "CT" (PyInt s) (PyInt m) (PyInt d)) = Some CT ->
  np_load_float fs (coord_file fs "CX" (PyInt s) (PyInt m) (PyInt d)) = Some CX ->
  np_load_float fs (coord_file fs "CY" (PyInt s) (PyInt m) (PyInt d)) = Some CY ->
  CT <> [] ->
  length CX <> length CT \/ length CY <> length CT \/ length NHB <> length CT ->
  load_movement fs (PyInt s) (PyInt m) (PyInt d) = Raise (ValueError length_mismatch_msg).
Proof.
  intros Hs Hm Hd HHB HCT HCX HCY Hne Hrag.
  rewrite (load_movement_valid fs s m d Hs Hm Hd).
  unfold load_with. rewrite HHB, HCT, HCX, HCY. cbn [bind].
  destruct CT as [|t0 CT]; [contradiction|].
  unfold setitem.
  cbn [nrows series_len length Nat.eqb reindex_nan map df_set bind
       String.eqb Ascii.eqb Bool.eqb].
  destruct (Nat.eqb_spec (length CX) (S (length CT))) as [Ex|Nx]; [|reflexivity].
  cbn [nrows series_len length Nat.eqb df_set bind String.eqb Ascii.eqb Bool.eqb].
  destruct (Nat.eqb_spec (length CY) (S (length CT))) as [Ey|Ny]; [|reflexivity].
  cbn [nrows series_len length Nat.eqb df_set bind String.eqb Ascii.eqb Bool.eqb].
  rewrite length_map.
  destruct (Nat.eqb_spec (length NHB) (S (length CT))) as [Eh|Nh]; [|reflexivity].
  cbn [length] in Hrag. lia.
Qed.

Lemma load_movement_ragged_witness :
  load_movement faulty_dir (PyInt 2) (PyInt 0) (PyInt 0)
  = Raise (ValueError length_mismatch_msg).
Proof.
  apply (load_movement_ragged faulty_dir 2 0 0 [true; false]
           [0; 1]%float [5]%float [1; 2]%float); try lia; try reflexivity.
  - discriminate.
  - left. simpl. lia.
Defined.

Lemma coord_path_keys (kind : string) (s m d : Z) :
  In kind movement_kinds ->
  (0 <= s)%Z -> (0 <= m)%Z -> (0 <= d)%Z ->
  int_between "strain" "_mouse" (coord_path kind (PyInt s) (PyInt m) (PyInt d)) = Ok s
  /\ int_between "mouse" "_day" (coord_path kind (PyInt s) (PyInt m) (PyInt d)) = Ok m
  /\ int_between "day" ".npy" (coord_path kind (PyInt s) (PyInt m) (PyInt d)) = Ok d.
Proof.
  intros Hk Hs Hm Hd.
  pose proof (py_int_format s Hs) as Is.
  pose proof (py_int_format m Hm) as Im.
  pose proof (py_int_format d Hd) as Id.
  unfold coord_path.
  destruct (format_is_numeral s Hs) as [us Es].
  destruct (format_is_numeral m Hm) as [um Em].
  destruct (format_is_numeral d Hd) as [ud Ed].
  rewrite Es, Em, Ed in *.
  unfold int_between, split.
  simpl in Hk.
  repeat (destruct Hk as [<-|Hk];
          [split; [|split]; scan; scan; assumption|]).
  destruct Hk.
Qed.

Lemma coord_path_relative (kind : string) (strain mouse day : pyval) :
  String.prefix "/" (coord_path kind strain mouse day) = false.
Proof. reflexivity. Qed.

Lemma path_join_relative_inj (dir a b : string) :
  String.prefix "/" a = false -> String.prefix "/" b = false ->
  path_join dir [a] = path_join dir [b] -> a = b.
Proof.
  intros Ha Hb. unfold path_join, path_join2. cbn [fold_left]. rewrite Ha, Hb.
  destruct (String.eqb dir "" || endswith_sep dir)%bool; intros H.
  - apply append_inj_l in H. exact H.
  - apply append_inj_l in H. inversion H. reflexivity.
Qed.

(** X14: two different subject-days with nonnegative integer keys never
    share a coordinate file: for each of the four kinds of file the two
    paths differ. *)
Theorem movement_files_distinct (fs : DataDir) (kind : string) (s m d s' m' d' : Z) :
  In kind movement_kinds ->
  (0 <= s)%Z -> (0 <= m)%Z -> (0 <= d)%Z ->
  (0 <= s')%Z -> (0 <= m')%Z -> (0 <= d')%Z ->
  (s, m, d) <> (s', m', d') ->
  coord_file fs kind (PyInt s) (PyInt m) (PyInt d)
  <> coord_file fs kind (PyInt s') (PyInt m') (PyInt d').
Proof.
  intros Hk Hs Hm Hd Hs' Hm' Hd' Hne Heq. apply Hne.
  unfold coord_file in Heq.
  apply path_join_relative_inj in Heq; try apply coord_path_relative.
  destruct (coord_path_keys kind s m d Hk Hs Hm Hd) as [A [B C]].
  destruct (coord_path_keys kind s' m' d' Hk Hs' Hm' Hd') as [A' [B' C']].
  rewrite Heq in A, B, C.
  assert (s = s') by congruence. assert (m = m') by congruence.
  assert (d = d') by congruence. subst. reflexivity.
Qed.

Lemma movement_files_distinct_witness :
  coord_file sample_dir "CT" (PyInt 1) (PyInt 1) (PyInt 1)
  <> coord_file sample_dir "CT" (PyInt 1) (PyInt 11) (PyInt 1).
Proof.
  apply (movement_files_distinct sample_dir "CT" 1 1 1 1 11 1); try lia.
  - simpl. tauto.
  - discriminate.
Defined.

(** ** load_movement_and_intervals: the loop as a whole *)

(** Assigning a column the value it already has changes nothing. *)
Lemma df_set_same_value (df : DataFrame) (name : string) (s : Series) :
  df_get df name = Some s -> df_set df name s = df.
Proof.
  induction df as [|[n old] rest IH]; simpl; [discriminate|].
  destruct (String.eqb n name) eqn:E.
  - intros H. inversion H; subst. reflexivity.
  - intros H. rewrite IH by exact H. reflexivity.
Qed.

Lemma annotate_feature_eq (fs : DataDir) (strain mouse day : pyval)
  (df : DataFrame) (ts : Series) (f : string) :
  df_get df "t" = Some ts ->
  annotate_feature fs strain mouse day df f
  = match load_intervals fs f with
    | Ok intervals =>
        Ok (df_set df f (BoolSeries (_lookup_intervals (as_floats ts)
                           (select_subject_day strain mouse day intervals))))
    | Raise e => Raise e
    end.
Proof.
  intros Ht. unfold annotate_feature, times_of. rewrite Ht.
  destruct (load_intervals fs f); reflexivity.
Qed.

Lemma load_intervals_ok_known (fs : DataDir) (f : string) (rows : list IntervalRow) :
  load_intervals fs f = Ok rows -> In f INTERVAL_FEATURES.
Proof.
  intros H. destruct (in_dec string_dec f INTERVAL_FEATURES) as [Hin|Hnin]; [exact Hin|].
  rewrite (load_intervals_unknown _ _ Hnin) in H. discriminate H.
Qed.

Lemma loop_inv_step (fs : DataDir) (strain mouse day : pyval) (ts : Series)
  (seen : list string) (df df1 : DataFrame) (f : string) :
  loop_inv fs strain mouse day ts seen df ->
  annotate_feature fs strain mouse day df f = Ok df1 ->
  loop_inv fs strain mouse day ts (seen ++ [f]) df1
  /\ (In f seen -> df1 = df)
  /\ (forall c, c <> f -> df_get df1 c = df_get df c).
Proof.
  intros [Ht Hseen] Hstep.
  rewrite (annotate_feature_eq _ _ _ _ _ _ _ Ht) in Hstep.
  destruct (load_intervals fs f) as [rows|] eqn:Hload; [|discriminate].
  inversion Hstep; subst df1. clear Hstep.
  assert (Hf : f <> "t") by (apply t_is_no_feature; eapply load_intervals_ok_known; eauto).
  assert (Hcol : feature_column fs strain mouse day ts f
                 = Some (BoolSeries (_lookup_intervals (as_floats ts)
                                       (select_subject_day strain mouse day rows)))).
  { unfold feature_column. rewrite Hload. reflexivity. }
  split; [split|split].
  - rewrite df_get_df_set_other; [exact Ht | congruence].
  - intros g Hg. apply in_app_or in Hg.
    destruct (string_dec g f) as [->|Hne].
    + eexists. split; [exact Hcol | apply df_get_df_set_same].
    + destruct Hg as [Hg|[Hg|[]]]; [|congruence].
      destruct (Hseen g Hg) as [s [Hs Hd]]. exists s. split; [exact Hs|].
      rewrite df_get_df_set_other; [exact Hd | exact Hne].
  - intros Hin. destruct (Hseen f Hin) as [s [Hs Hd]].
    rewrite Hcol in Hs. inversion Hs; subst s.
    apply df_set_same_value. exact Hd.
  - intros c Hc. apply df_get_df_set_other. exact Hc.
Qed.

Lemma loop_skips_repeats (fs : DataDir) (strain mouse day : pyval) (ts : Series) :
  forall features seen df,
    loop_inv fs strain mouse day ts seen df ->
    for_each (annotate_feature fs strain mouse day) features df
    = for_each (annotate_feature fs strain mouse day)
        (first_occurrences seen features) df.
Proof.
  induction features as [|f rest IH]; intros seen df Hinv; simpl; [reflexivity|].
  destruct (existsb (String.eqb f) seen) eqn:E.
  - apply existsb_eqb_In in E.
    destruct (annotate_feature fs strain mouse day df f) as [df1|e] eqn:Hstep.
    + destruct (loop_inv_step _ _ _ _ _ _ _ _ _ Hinv Hstep) as [_ [Hsame _]].
      rewrite (Hsame E). cbn [bind]. apply IH. exact Hinv.
    + exfalso. destruct Hinv as [Ht Hseen].
      rewrite (annotate_feature_eq _ _ _ _ _ _ _ Ht) in Hstep.
      destruct (Hseen f E) as [s [Hs _]]. unfold feature_column in Hs.
      destruct (load_intervals fs f); discriminate.
  - simpl.
    destruct (annotate_feature fs strain mouse day df f) as [df1|e] eqn:Hstep;
      cbn [bind]; [|reflexivity].
    apply IH.
    destruct (loop_inv_step _ _ _ _ _ _ _ _ _ Hinv Hstep) as [Hinv1 _].
    exact Hinv1.
Qed.

Lemma load_movement_has_t (fs : DataDir) (strain mouse day : pyval) (mv : DataFrame) :
  load_movement fs strain mouse day = Ok mv -> exists ts, df_get mv "t" = Some ts.
Proof.
  intros Hmv. destruct (load_movement_shape _ _ _ _ _ Hmv) as [Hcols [_ Hne]].
  destruct mv as [|[c s] rest]; [contradiction|].
  simpl in Hcols. inversion Hcols; subst c. simpl. eexists. reflexivity.
Qed.

(** X15: naming a feature more than once in the request changes nothing:
    the call behaves, result or exception, as with each name kept at its
    first occurrence only. *)
Theorem repeated_features_are_harmless (fs : DataDir) (strain mouse day : pyval)
  (features : list string) :
  load_movement_and_intervals fs strain mouse day features
  = load_movement_and_intervals fs strain mouse day (first_occurrences [] features).
Proof.
  unfold load_movement_and_intervals.
  destruct (load_movement fs strain mouse day) as [mv|e] eqn:Hmv; cbn [bind];
    [|reflexivity].
  destruct (load_movement_has_t _ _ _ _ _ Hmv) as [ts Ht].
  apply (loop_skips_repeats fs strain mouse day ts).
  split; [exact Ht | intros g []].
Qed.

Lemma loop_result (fs : DataDir) (strain mouse day : pyval) (ts : Series) :
  forall features seen df out,
    loop_inv fs strain mouse day ts seen df ->
    for_each (annotate_feature fs strain mouse day) features df = Ok out ->
    loop_inv fs strain mouse day ts (seen ++ features) out
    /\ (forall c, ~ In c features -> df_get out c = df_get df c).
Proof.
  induction features as [|f rest IH]; intros seen df out Hinv Hrun; simpl in Hrun.
  - inversion Hrun; subst out. rewrite app_nil_r. split; [exact Hinv | reflexivity].
  - destruct (annotate_feature fs strain mouse day df f) as [df1|] eqn:Hstep;
      cbn [bind] in Hrun; [|discriminate].
    destruct (loop_inv_step _ _ _ _ _ _ _ _ _ Hinv Hstep) as [Hinv1 [_ Hkeep1]].
    destruct (IH _ _ _ Hinv1 Hrun) as [Hinvo Hkeep].
    split.
    + rewrite <- app_assoc in Hinvo. exact Hinvo.
    + intros c Hc. rewrite Hkeep by (intros Hin; apply Hc; right; exact Hin).
      apply Hkeep1. intros Heq. apply Hc. left. symmetry. exact Heq.
Qed.

Lemma loop_is_ok (fs : DataDir) (strain mouse day : pyval) (ts : Series) :
  forall features df,
    df_get df "t" = Some ts ->
    is_ok (for_each (annotate_feature fs strain mouse day) features df)
    = forallb (fun f => is_ok (load_intervals fs f)) features.
Proof.
  induction features as [|f rest IH]; intros df Ht; simpl; [reflexivity|].
  rewrite (annotate_feature_eq _ _ _ _ _ _ _ Ht).
  destruct (load_intervals fs f) as [rows|e] eqn:Hload; cbn [bind is_ok andb];
    [|reflexivity].
  apply IH. rewrite df_get_df_set_other; [exact Ht|].
  intros Heq. apply (t_is_no_feature f); [|symmetry; exact Heq].
  eapply load_intervals_ok_known. exact Hload.
Qed.

Lemma annotation_is_ok (fs : DataDir) (strain mouse day : pyval)
  (features : list string) :
  is_ok (load_movement_and_intervals fs strain mouse day features)
  = is_ok (load_movement fs strain mouse day)
    && forallb (fun f => is_ok (load_intervals fs f)) features.
Proof.
  unfold load_movement_and_intervals.
  destruct (load_movement fs strain mouse day) as [mv|e] eqn:Hmv; cbn [bind is_ok andb];
    [|reflexivity].
  destruct (load_movement_has_t _ _ _ _ _ Hmv) as [ts Ht].
  apply (loop_is_ok fs strain mouse day ts). exact Ht.
Qed.


(** X17: when the movement table loads, the exception raised is that of the
    first requested feature whose intervals do not load, whatever it is
    (unknown name, missing or empty directory, unreadable file) and
    whatever is requested after it. *)
Theorem first_failure_decides (fs : DataDir) (strain mouse day : pyval)
  (before after : list string) (f : string) (mv : DataFrame) (e : exception) :
  load_movement fs strain mouse day = Ok mv ->
  forallb (fun g => is_ok (load_intervals fs g)) before = true ->
  load_intervals fs f = Raise e ->
  load_movement_and_intervals fs strain mouse day (before ++ f :: after) = Raise e.
Proof.
  intros Hmv Hbefore Hf.
  destruct (load_movement_has_t _ _ _ _ _ Hmv) as [ts Ht].
  unfold load_movement_and_intervals. rewrite Hmv. cbn [bind].
  rewrite for_each_app.
  destruct (for_each (annotate_feature fs strain mouse day) before mv) as [mid|e']
    eqn:Hrun.
  - cbn [bind for_each].
    assert (Hinv : loop_inv fs strain mouse day ts [] mv) by (split; [exact Ht | intros g []]).
    destruct (loop_result _ _ _ _ _ _ _ _ _ Hinv Hrun) as [[Htm _] _].
    rewrite (annotate_feature_eq _ _ _ _ _ _ _ Htm), Hf. reflexivity.
  - pose proof (loop_is_ok fs strain mouse day ts before mv Ht) as Hok.
    rewrite Hrun, Hbefore in Hok. discriminate Hok.
Qed.

Lemma feature_column_of (fs : DataDir) (strain mouse day : pyval)
  (features : list string) (mv out : DataFrame) (ts : Series) (f : string) :
  load_movement fs strain mouse day = Ok mv ->
  df_get mv "t" = Some ts ->
  load_movement_and_intervals fs strain mouse day features = Ok out ->
  In f features ->
  exists rows,
    load_intervals fs f = Ok rows
    /\ df_get out f
       = Some (BoolSeries (_lookup_intervals (as_floats ts)
                             (select_subject_day strain mouse day rows))).
Proof.
  intros Hmv Ht Hrun Hin.
  unfold load_movement_and_intervals in Hrun. rewrite Hmv in Hrun. cbn [bind] in Hrun.
  assert (Hinv : loop_inv fs strain mouse day ts [] mv) by (split; [exact Ht | intros g []]).
  destruct (loop_result _ _ _ _ _ _ _ _ _ Hinv Hrun) as [[_ Hseen] _].
  destruct (Hseen f Hin) as [s [Hs Hd]].
  unfold feature_column in Hs.
  destruct (load_intervals fs f) as [rows|]; [|discriminate].
  exists rows. split; [reflexivity|]. inversion Hs; subst s. exact Hd.
Qed.

Lemma first_failure_decides_witness :
  load_movement_and_intervals sample_dir (PyInt 1) (PyInt 1) (PyInt 1)
    (["AS"; "F"] ++ "IS" :: ["XYZ"])
  = Raise (ValueError empty_directory_msg).
Proof.
  apply (first_failure_decides sample_dir (PyInt 1) (PyInt 1) (PyInt 1)
           ["AS"; "F"] ["XYZ"] "IS" sample_movements).
  - vm_compute. reflexivity.
  - vm_compute. reflexivity.
  - vm_compute. reflexivity.
Defined.

(** X19: the content of the columns does not depend on the order of the
    request nor on repetitions in it: two requests with the same set of
    names succeed together and give tables with the same column under each
    name. *)
Theorem request_order_is_irrelevant (fs : DataDir) (strain mouse day : pyval)
  (features features' : list string) (out : DataFrame) :
  (forall f, In f features <-> In f features') ->
  load_movement_and_intervals fs strain mouse day features = Ok out ->
  exists out',
    load_movement_and_intervals fs strain mouse day features' = Ok out'
    /\ forall c, df_get out' c = df_get out c.
Proof.
  intros Hsame Hrun.
  pose proof (annotation_is_ok fs strain mouse day features) as Hok.
  rewrite Hrun in Hok. cbn [is_ok] in Hok. symmetry in Hok.
  apply andb_true_iff in Hok. destruct Hok as [Hmvok Hall].
  assert (Hok' : is_ok (load_movement_and_intervals fs strain mouse day features') = true).
  { rewrite annotation_is_ok, Hmvok. cbn [andb].
    rewrite forallb_forall in *. intros f Hf. apply Hall. apply Hsame. exact Hf. }
  destruct (load_movement_and_intervals fs strain mouse day features') as [out'|] eqn:Hrun';
    [|discriminate].
  exists out'. split; [reflexivity|].
  unfold load_movement_and_intervals in Hrun, Hrun'.
  destruct (load_movement fs strain mouse day) as [mv|] eqn:Hmv; [|discriminate].
  cbn [bind] in Hrun, Hrun'.
  destruct (load_movement_has_t _ _ _ _ _ Hmv) as [ts Ht].
  assert (Hinv : loop_inv fs strain mouse day ts [] mv) by (split; [exact Ht | intros g []]).
  destruct (loop_result _ _ _ _ _ _ _ _ _ Hinv Hrun) as [[_ Hseen] Hkeep].
  destruct (loop_result _ _ _ _ _ _ _ _ _ Hinv Hrun') as [[_ Hseen'] Hkeep'].
  intros c. destruct (in_dec string_dec c features) as [Hc|Hc].
  - destruct (Hseen c Hc) as [s [Hs Hd]].
    destruct (Hseen' c (proj1 (Hsame c) Hc)) as [s' [Hs' Hd']].
    congruence.
  - rewrite Hkeep by exact Hc. apply Hkeep'.
    intros Hin. apply Hc. apply Hsame. exact Hin.
Qed.

Lemma request_order_is_irrelevant_witness :
  exists out',
    load_movement_and_intervals sample_dir (PyInt 1) (PyInt 1) (PyInt 1)
      ["AS"; "F"; "AS"] = Ok out'
    /\ forall c, df_get out' c = df_get sample_annotated c.
Proof.
  apply (request_order_is_irrelevant sample_dir (PyInt 1) (PyInt 1) (PyInt 1)
           ["F"; "AS"] ["AS"; "F"; "AS"] sample_annotated).
  - intros f. simpl. tauto.
  - vm_compute. reflexivity.
Defined.

Lemma select_subject_day_In (s m d : Z) (rows : list IntervalRow) (r : IntervalRow) :
  In r (select_subject_day (PyInt s) (PyInt m) (PyInt d) rows)
  <-> In r rows /\ row_strain r = s /\ row_mouse r = m /\ row_day r = d.
Proof.
  unfold select_subject_day. rewrite filter_In. cbn [py_eq_int].
  rewrite !andb_true_iff, !Z.eqb_eq. tauto.
Qed.

(** X18: in the annotated table, the cell of feature f at row i is true
    exactly when the table of f has a row of this strain, mouse and day
    whose start is below the i-th timestamp and whose stop is above it. *)
Theorem feature_cell_meaning (fs : DataDir) (s m d : Z) (features : list string)
  (mv out : DataFrame) (ts : Series) (f : string) (rows : list IntervalRow)
  (i : nat) (t : float) :
  load_movement fs (PyInt s) (PyInt m) (PyInt d) = Ok mv ->
  df_get mv "t" = Some ts ->
  load_movement_and_intervals fs (PyInt s) (PyInt m) (PyInt d) features = Ok out ->
  In f features ->
  load_intervals fs f = Ok rows ->
  nth_error (as_floats ts) i = Some t ->
  exists v b,
    df_get out f = Some (BoolSeries v)
    /\ nth_error v i = Some b
    /\ (b = true <->
        exists r, In r rows
                  /\ row_strain r = s /\ row_mouse r = m /\ row_day r = d
                  /\ (row_start r <? t)%float = true
                  /\ (t <? row_stop r)%float = true).
Proof.
  intros Hmv Ht Hrun Hin Hrows Hnth.
  destruct (feature_column_of _ _ _ _ _ _ _ _ _ Hmv Ht Hrun Hin)
    as [rows' [Hrows' Hcol]].
  rewrite Hrows in Hrows'. inversion Hrows'; subst rows'. clear Hrows'.
  eexists. eexists. split; [exact Hcol|].
  split.
  { unfold _lookup_intervals. rewrite nth_error_map, Hnth. reflexivity. }
  rewrite contains_iff. unfold start_stop. split.
  - intros [iv [Hiv [H1 H2]]]. apply in_map_iff in Hiv.
    destruct Hiv as [r [<- Hr]]. apply select_subject_day_In in Hr.
    exists r. simpl in H1, H2. tauto.
  - intros [r [Hr [Ks [Km [Kd [H1 H2]]]]]].
    exists (mkInterval (row_start r) (row_stop r)). split; [|split; assumption].
    apply in_map_iff. exists r. split; [reflexivity|].
    apply select_subject_day_In. tauto.
Qed.

Lemma feature_cell_meaning_witness :
  exists v b,
    df_get sample_annotated "AS" = Some (BoolSeries v)
    /\ nth_error v 3 = Some b
    /\ (b = true <->
        exists r, In r [mkRow 0 0 0 0 10; mkRow 1 1 1 1 2; mkRow 1 1 1 5 6]
                  /\ row_strain r = 1%Z /\ row_mouse r = 1%Z /\ row_day r = 1%Z
                  /\ (row_start r <? 5.5)%float = true
                  /\ (5.5 <? row_stop r)%float = true).
Proof.
  apply (feature_cell_meaning sample_dir 1 1 1 ["F"; "AS"] sample_movements
           sample_annotated (FloatSeries [0; 1.5; 3; 5.5; 7]%float) "AS").
  - vm_compute. reflexivity.
  - reflexivity.
  - vm_compute. reflexivity.
  - simpl. tauto.
  - vm_compute. reflexivity.
  - reflexivity.
Defined.

(** ** load_all_features: the tidy table *)

(** The code computes the closed form [tidy_table]. *)
Lemma load_all_features_tidy (np_load_cube : string -> option ndarray3)
  (fs : DataDir) (a : ndarray3) :
  np_load_cube (cube_path fs) = Some a ->
  9 <= dim0 a -> dim2 a = 14 ->
  load_all_features np_load_cube fs = Ok (tidy_table a).
Proof.
  intros Hload H0 H2. unfold load_all_features, load_with.
  fold (cube_path fs). rewrite Hload. cbn [bind].
  destruct a as [d0 d1 d2 f]. cbn [dim0 dim1 dim2] in *. subst d2.
  destruct (Nat.le_exists_sub 9 d0 H0) as [k [-> _]].
  replace (k + 9) with (9 + k) by lia.
  unfold tidy_table, cube_column, slab, frame_of_array, melt, enumerate,
    bin_features, hours.
  cbn. rewrite ?length_map, ?length_seq. reflexivity.
Qed.

Lemma load_all_features_ok (np_load_cube : string -> option ndarray3) (fs : DataDir) :
  is_ok (load_all_features np_load_cube fs) = true ->
  exists a, np_load_cube (cube_path fs) = Some a /\ 9 <= dim0 a /\ dim2 a = 14.
Proof.
  unfold load_all_features, load_with. fold (cube_path fs).
  destruct (np_load_cube (cube_path fs)) as [a|]; cbn [bind is_ok]; [|discriminate].
  intros Hok. exists a. split; [reflexivity|].
  destruct a as [d0 d1 d2 f]. cbn [dim0 dim1 dim2].
  unfold slab, frame_of_array, enumerate, bin_features in Hok.
  cbn [dim0 dim1 dim2 rows2 cols2 at2 length seq combine for_each fst snd] in Hok.
  destruct (Nat.eqb_spec d2 14) as [->|Hne].
  - split; [|reflexivity].
    do 9 (destruct d0 as [|d0]; [cbn in Hok; discriminate Hok|]). lia.
  - exfalso. destruct d0 as [|d0]; cbn [Nat.ltb Nat.leb bind] in Hok;
      [discriminate Hok|].
    cbn [app length hours map seq cols2] in Hok.
    destruct (Nat.eqb_spec d2 14) as [E|_]; [contradiction|].
    cbn [bind] in Hok. discriminate Hok.
Qed.

Lemma load_all_features_inv (np_load_cube : string -> option ndarray3)
  (fs : DataDir) (df : Frame) :
  load_all_features np_load_cube fs = Ok df ->
  exists a,
    np_load_cube (cube_path fs) = Some a /\ 9 <= dim0 a /\ dim2 a = 14
    /\ df = tidy_table a.
Proof.
  intros H.
  assert (Hok : is_ok (load_all_features np_load_cube fs) = true)
    by (rewrite H; reflexivity).
  destruct (load_all_features_ok _ _ Hok) as [a [Hload [H0 H2]]].
  exists a. repeat split; try assumption.
  rewrite (load_all_features_tidy _ _ _ Hload H0 H2) in H. congruence.
Qed.

Lemma nth_error_seq0 (n i : nat) : i < n -> nth_error (seq 0 n) i = Some i.
Proof.
  intros H. rewrite nth_error_nth' with (d := 0) by (rewrite length_seq; exact H).
  rewrite seq_nth by exact H. reflexivity.
Qed.

(** Indexing into blocks of one length laid end to end. *)
Lemma nth_error_blocks {A B : Type} (g : A -> list B) (n : nat) (l : list A) :
  (forall x, length (g x) = n) ->
  forall j r, r < n ->
    nth_error (flat_map g l) (j * n + r)
    = match nth_error l j with
      | Some x => nth_error (g x) r
      | None => None
      end.
Proof.
  intros Hlen. induction l as [|x rest IH]; intros j r Hr; simpl.
  - destruct (j * n + r); destruct j; reflexivity.
  - destruct j as [|j]; simpl.
    + rewrite nth_error_app1 by (rewrite Hlen; exact Hr). reflexivity.
    + rewrite nth_error_app2 by (rewrite Hlen; lia).
      rewrite Hlen. replace (n + j * n + r - n) with (j * n + r) by lia.
      apply IH. exact Hr.
Qed.

Lemma concat_repeat_blocks {B : Type} (c : list B) (k : nat) :
  concat (repeat c k) = flat_map (fun _ : nat => c) (seq 0 k).
Proof.
  generalize 0. induction k as [|k IH]; intros s; simpl; [reflexivity|].
  rewrite (IH (S s)). reflexivity.
Qed.

Lemma cube_column_length (a : ndarray3) (i j : nat) :
  length (cube_column a i j) = dim1 a.
Proof. unfold cube_column. rewrite length_map, length_seq. reflexivity. Qed.

Lemma cube_column_nth (a : ndarray3) (i j r : nat) :
  r < dim1 a -> nth_error (cube_column a i j) r = Some (CNum (at3 a i r j)).
Proof.
  intros Hr. unfold cube_column. rewrite nth_error_map, nth_error_seq0 by exact Hr.
  reflexivity.
Qed.

Lemma tidy_table_shape (a : ndarray3) :
  frame_labels (tidy_table a)
  = [LStr "strain"; LStr "mouse"; LStr "day"; LStr "hour"] ++ map LStr bin_features
  /\ length (tidy_table a) = 13
  /\ Forall (fun c => length (snd c) = 11 * dim1 a) (tidy_table a).
Proof.
  split; [reflexivity|]. split; [reflexivity|].
  unfold tidy_table, enumerate, bin_features, hours.
  cbn [map combine seq length app fst snd].
  repeat constructor; cbn [snd];
    try (rewrite concat_repeat_blocks);
    cbn [flat_map seq map];
    repeat rewrite ?length_app, ?cube_column_length, ?repeat_length; cbn [length]; lia.
Qed.

Lemma tidy_table_cells (a : ndarray3) (i j r : nat) (name : string) :
  nth_error bin_features i = Some name -> j < 11 -> r < dim1 a ->
  exists strain mouse day hour value,
    frame_get (tidy_table a) (LStr "strain") = Ok strain
    /\ frame_get (tidy_table a) (LStr "mouse") = Ok mouse
    /\ frame_get (tidy_table a) (LStr "day") = Ok day
    /\ frame_get (tidy_table a) (LStr "hour") = Ok hour
    /\ frame_get (tidy_table a) (LStr name) = Ok value
    /\ nth_error strain (j * dim1 a + r) = Some (CNum (at3 a 0 r 0))
    /\ nth_error mouse (j * dim1 a + r) = Some (CNum (at3 a 0 r 1))
    /\ nth_error day (j * dim1 a + r) = Some (CNum (at3 a 0 r 2))
    /\ nth_error hour (j * dim1 a + r) = Some (CLabel (LInt (2 * Z.of_nat j)))
    /\ nth_error value (j * dim1 a + r) = Some (CNum (at3 a i r (3 + j))).
Proof.
  intros Hname Hj Hr.
  assert (Hid : forall c, nth_error (concat (repeat (cube_column a 0 c) 11))
                            (j * dim1 a + r) = Some (CNum (at3 a 0 r c))).
  { intros c. rewrite concat_repeat_blocks.
    rewrite (nth_error_blocks (fun _ => cube_column a 0 c) (dim1 a))
      by (intros; try apply cube_column_length; assumption).
    rewrite nth_error_seq0 by exact Hj. apply cube_column_nth. exact Hr. }
  assert (Hval : nth_error (flat_map (fun j => cube_column a i (3 + j)) (seq 0 11))
                   (j * dim1 a + r) = Some (CNum (at3 a i r (3 + j)))).
  { rewrite (nth_error_blocks (fun j => cube_column a i (3 + j)) (dim1 a))
      by (intros; try apply cube_column_length; assumption).
    rewrite nth_error_seq0 by exact Hj. apply cube_column_nth. exact Hr. }
  assert (Hhour : nth_error (flat_map (fun h => repeat (CLabel h) (dim1 a)) hours)
                    (j * dim1 a + r) = Some (CLabel (LInt (2 * Z.of_nat j)))).
  { rewrite (nth_error_blocks (fun h => repeat (CLabel h) (dim1 a)) (dim1 a))
      by (intros; try apply repeat_length; assumption).
    unfold hours. rewrite nth_error_map, nth_error_seq0 by exact Hj. cbn [option_map].
    apply nth_error_repeat. exact Hr. }
  do 4 eexists. exists (flat_map (fun j => cube_column a i (3 + j)) (seq 0 11)).
  split; [reflexivity|]. split; [reflexivity|]. split; [reflexivity|].
  split; [reflexivity|].
  split.
  { unfold bin_features in Hname.
    do 9 (destruct i as [|i]; [inversion Hname; subst name; reflexivity|]).
    destruct i; discriminate Hname. }
  repeat split; auto.
Qed.

(** X20: [load_all_features] returns a table exactly when the array file
    loads, holds at least 9 slabs and has 14 columns (3 identifiers and 11
    bins); an array with fewer slabs or another width makes it raise. *)
Theorem load_all_features_succeeds_iff (np_load_cube : string -> option ndarray3)
  (fs : DataDir) :
  is_ok (load_all_features np_load_cube fs) = true
  <-> exists a, np_load_cube (cube_path fs) = Some a /\ 9 <= dim0 a /\ dim2 a = 14.
Proof.
  split; [apply load_all_features_ok|].
  intros [a [Hload [H0 H2]]].
  rewrite (load_all_features_tidy _ _ _ Hload H0 H2). reflexivity.
Qed.

(** X21: the table returned has the 13 columns strain, mouse, day, hour and
    the 9 features, in this order, and 11 rows per mouse-day of the array:
    21131 rows for the 1921 mouse-days of the data set. *)
Theorem load_all_features_shape (np_load_cube : string -> option ndarray3)
  (fs : DataDir) (df : Frame) :
  load_all_features np_load_cube fs = Ok df ->
  exists a,
    np_load_cube (cube_path fs) = Some a
    /\ frame_labels df
       = [LStr "strain"; LStr "mouse"; LStr "day"; LStr "hour"] ++ map LStr bin_features
    /\ length df = 13
    /\ Forall (fun c => length (snd c) = 11 * dim1 a) df
    /\ (dim1 a = 1921 -> Forall (fun c => length (snd c) = 21131) df).
Proof.
  intros H. destruct (load_all_features_inv _ _ _ H) as [a [Hload [_ [_ ->]]]].
  destruct (tidy_table_shape a) as [Hl [Hn Hrows]].
  exists a. repeat split; try assumption.
  intros Hd. rewrite Hd in Hrows. exact Hrows.
Qed.

Lemma load_all_features_shape_witness :
  exists a,
    sample_cube_loader (cube_path sample_dir) = Some a
    /\ frame_labels (tidy_table sample_cube)
       = [LStr "strain"; LStr "mouse"; LStr "day"; LStr "hour"] ++ map LStr bin_features
    /\ length (tidy_table sample_cube) = 13
    /\ Forall (fun c => length (snd c) = 11 * dim1 a) (tidy_table sample_cube)
    /\ (dim1 a = 1921 -> Forall (fun c => length (snd c) = 21131) (tidy_table sample_cube)).
Proof.
  apply (load_all_features_shape sample_cube_loader sample_dir).
  vm_compute. reflexivity.
Defined.

(** X22: the rows are laid out bin after bin: for the mouse-day r and the
    j-th bin, the row j * n + r (n mouse-days) holds the identifiers of r
    as the first slab has them, the hour 2 j, and for the i-th feature the
    cell (i, r, 3 + j) of the array. *)
Theorem load_all_features_cells (np_load_cube : string -> option ndarray3)
  (fs : DataDir) (a : ndarray3) (df : Frame) (i j r : nat) (name : string) :
  np_load_cube (cube_path fs) = Some a ->
  load_all_features np_load_cube fs = Ok df ->
  nth_error bin_features i = Some name -> j < 11 -> r < dim1 a ->
  exists strain mouse day hour value,
    frame_get df (LStr "strain") = Ok strain
    /\ frame_get df (LStr "mouse") = Ok mouse
    /\ frame_get df (LStr "day") = Ok day
    /\ frame_get df (LStr "hour") = Ok hour
    /\ frame_get df (LStr name) = Ok value
    /\ nth_error strain (j * dim1 a + r) = Some (CNum (at3 a 0 r 0))
    /\ nth_error mouse (j * dim1 a + r) = Some (CNum (at3 a 0 r 1))
    /\ nth_error day (j * dim1 a + r) = Some (CNum (at3 a 0 r 2))
    /\ nth_error hour (j * dim1 a + r) = Some (CLabel (LInt (2 * Z.of_nat j)))
    /\ nth_error value (j * dim1 a + r) = Some (CNum (at3 a i r (3 + j))).
Proof.
  intros Hload H Hname Hj Hr.
  destruct (load_all_features_inv _ _ _ H) as [a' [Hload' [_ [_ ->]]]].
  rewrite Hload in Hload'. inversion Hload'; subst a'.
  apply tidy_table_cells; assumption.
Qed.

Lemma load_all_features_cells_witness :
  exists strain mouse day hour value,
    frame_get (tidy_table sample_cube) (LStr "strain") = Ok strain
    /\ frame_get (tidy_table sample_cube) (LStr "mouse") = Ok mouse
    /\ frame_get (tidy_table sample_cube) (LStr "day") = Ok day
    /\ frame_get (tidy_table sample_cube) (LStr "hour") = Ok hour
    /\ frame_get (tidy_table sample_cube) (LStr "Food") = Ok value
    /\ nth_error strain (4 * dim1 sample_cube + 1) = Some (CNum (at3 sample_cube 0 1 0))
    /\ nth_error mouse (4 * dim1 sample_cube + 1) = Some (CNum (at3 sample_cube 0 1 1))
    /\ nth_error day (4 * dim1 sample_cube + 1) = Some (CNum (at3 sample_cube 0 1 2))
    /\ nth_error hour (4 * dim1 sample_cube + 1)
       = Some (CLabel (LInt (2 * Z.of_nat 4)))
    /\ nth_error value (4 * dim1 sample_cube + 1)
       = Some (CNum (at3 sample_cube 3 1 (3 + 4))).
Proof.
  apply (load_all_features_cells sample_cube_loader sample_dir sample_cube
           (tidy_table sample_cube) 3 4 1 "Food").
  - reflexivity.
  - vm_compute. reflexivity.
  - reflexivity.
  - lia.
  - simpl. lia.
Defined.

Example load_all_features_sample :
  load_all_features sample_cube_loader sample_dir = Ok (tidy_table sample_cube)
  /\ frame_get (tidy_table sample_cube) (LStr "Food")
     = Ok (map CNum [303; 323; 304; 324; 305; 325; 306; 326; 307; 327; 308; 328;
                     309; 329; 310; 330; 311; 331; 312; 332; 313; 333]%float).
Proof. split; vm_compute; reflexivity. Qed.
